(** * Sandbox orchestrator of the training platform: model and properties

    A shallow embedding of the orchestration code of the platform:
    - [src/services/docker.js]   (DockerService: create, stop, monitor,
                                  completion, cleanup),
    - [src/routes/containers.js] (launch / stop / complete routes),
    - [src/routes/admin.js]      (admin force-stop),
    - [src/middleware/subdomain.js] (subdomain router),
    - [src/routes/exercises.js]  (bundle validation and image tag),
    - [src/db/init.js]           (the sqlite schema).

    The sqlite database, the docker daemon and the process-wide activity
    map are one explicit [World] value that every operation threads; a
    JavaScript exception is the [Throw] result of a small state-and-error
    monad, so that the state reached when an exception escapes is still
    observable. *)

From Stdlib Require Import List String Ascii ZArith NArith Bool Lia.
From Stdlib Require Import DecimalString.
From Equations Require Import Equations.
Import ListNotations.

Open Scope string_scope.
Open Scope Z_scope.

(* ===================================================================== *)
(** * JavaScript strings and values                                        *)
(* ===================================================================== *)

(** Strings are sequences of code units.  The model covers the code units
    U+0000..U+00FF (one [ascii] each); on that range the two functions
    below are exactly what [String.prototype.toLowerCase] and the regular
    expression class [\s] do. *)
Module Js.

Definition in_range (lo hi n : N) : bool := ((lo <=? n) && (n <=? hi))%N.

(** [toLowerCase] on one code unit: A-Z, and the Latin-1 capitals
    U+00C0..U+00DE except the multiplication sign U+00D7. *)
Definition lower_char (c : ascii) : ascii :=
  let n := N_of_ascii c in
  if in_range 65 90 n || (in_range 192 222 n && negb (n =? 215)%N)
  then ascii_of_N (n + 32)
  else c.

Fixpoint toLowerCase (s : string) : string :=
  match s with
  | EmptyString => EmptyString
  | String c r => String (lower_char c) (toLowerCase r)
  end.

(** The class [\s] below U+0100: TAB, LF, VT, FF, CR, SPACE, NBSP. *)
Definition is_space (c : ascii) : bool :=
  let n := N_of_ascii c in
  in_range 9 13 n || (n =? 32)%N || (n =? 160)%N.

(** Greedy [\s*] at the head of the string: what is left after it. *)
Fixpoint skip_spaces (s : string) : string :=
  match s with
  | EmptyString => EmptyString
  | String c r => if is_space c then skip_spaces r else s
  end.

(** [s.replace(/\s+/g, '-')]: scan from the left; where the greedy [\s+]
    matches, emit one '-' and go on after the match; elsewhere copy the
    code unit. *)
Equations? replace_spaces (s : string) : string by wf (String.length s) lt :=
  replace_spaces EmptyString := EmptyString;
  replace_spaces (String c r) :=
    if is_space c then String "-" (replace_spaces (skip_spaces r))
    else String c (replace_spaces r).
Proof.
  clear replace_spaces.
  assert (Hlen : (String.length (skip_spaces r) <= String.length r)%nat).
  { induction r as [|d r IH]; simpl; [lia|].
    destruct (is_space d); simpl; lia. }
  lia.
Qed.

(** The JSON values a parsed [metadata.json] can hold in one field. An array
    or an object is carried with its string conversion (what a template
    literal prints for it); numbers are the integers. *)
Inductive value : Type :=
  | JUndefined
  | JNull
  | JBool (b : bool)
  | JNum (n : Z)
  | JStr (s : string)
  | JObj (printed : string).

(** ToBoolean. *)
Definition truthy (v : value) : bool :=
  match v with
  | JUndefined | JNull => false
  | JBool b => b
  | JNum n => negb (n =? 0)
  | JStr s => negb (s =? "")%string
  | JObj _ => true
  end.

(** ToString, as a template literal applies it. *)
Definition to_string (v : value) : string :=
  match v with
  | JUndefined => "undefined"
  | JNull => "null"
  | JBool true => "true"
  | JBool false => "false"
  | JNum n => NilZero.string_of_int (Z.to_int n)
  | JStr s => s
  | JObj printed => printed
  end.

(** [v.toLowerCase()]: only strings have the method; on anything else the
    call is a TypeError ([None]). *)
Definition call_toLowerCase (v : value) : option string :=
  match v with
  | JStr s => Some (toLowerCase s)
  | _ => None
  end.

(** [hostname.split('.')]. *)
Fixpoint split (sep : ascii) (s : string) : list string :=
  match s with
  | EmptyString => [EmptyString]
  | String c r =>
      if Ascii.eqb c sep then EmptyString :: split sep r
      else match split sep r with
           | h :: t => String c h :: t
           | [] => [String c EmptyString]
           end
  end.

End Js.

(* ===================================================================== *)
(** * The world: sqlite tables, docker daemon, activity map                *)
(* ===================================================================== *)

(** ** Schema ([src/db/init.js])

    One record per row.  The surrogate [id] columns of [containers],
    [exercise_progress] and [system_logs] and the column
    [containers.last_activity] are left out: no statement of the modelled
    code reads or writes them.  Timestamps ([CURRENT_TIMESTAMP],
    [datetime('now')]) are seconds as integers.  Foreign keys are not
    enforced (sqlite's default); the UNIQUE constraints are.  A statement
    fails only by violating a constraint: I/O errors of sqlite are not
    modelled. *)

Inductive Status : Type := running | stopped | completed.

Inductive ProgressStatus : Type := not_started | in_progress | progress_completed.

Record ContainerRow : Type := mkContainer {
  container_id : string;
  image_id : Z;
  user_id : Z;
  subdomain : string;
  status : Status;
  host_port : string;
  created_at : Z
}.

Record ProgressRow : Type := mkProgress {
  p_user_id : Z;
  p_image_id : Z;
  p_status : ProgressStatus;
  attempts : Z;
  completed_at : option Z
}.

Record ImageRow : Type := mkImage {
  img_id : Z;
  img_name : string;
  img_version : string;
  img_description : string;
  img_level : string;
  img_image_id : string
}.

Inductive Detail : Type :=
  | DNum (n : Z)
  | DStr (s : string).

Record LogRow : Type := mkLog {
  event_type : string;
  log_user_id : Z;
  target_id : string;
  details : list (string * Detail)
}.

(** ** The docker daemon, as far as dockerode is used *)

Record DockerContainer : Type := mkDocker {
  d_id : string;
  d_name : string;
  d_image : string;
  d_labels : list (string * string);
  d_network : string;
  d_running : bool
}.

Record World : Type := mkWorld {
  containers : list ContainerRow;
  exercise_progress : list ProgressRow;
  docker_images : list ImageRow;
  system_logs : list LogRow;
  (** [docker !== null] *)
  docker_available : bool;
  docker_containers : list DockerContainer;
  docker_networks : list string;
  (** the keys of [global.containerActivity] *)
  containerActivity : list string
}.

Definition Status_eqb (a b : Status) : bool :=
  match a, b with
  | running, running | stopped, stopped | completed, completed => true
  | _, _ => false
  end.

Definition set_containers (f : list ContainerRow -> list ContainerRow) (w : World) : World :=
  mkWorld (f (containers w)) (exercise_progress w) (docker_images w) (system_logs w)
          (docker_available w) (docker_containers w) (docker_networks w) (containerActivity w).

Definition set_progress (f : list ProgressRow -> list ProgressRow) (w : World) : World :=
  mkWorld (containers w) (f (exercise_progress w)) (docker_images w) (system_logs w)
          (docker_available w) (docker_containers w) (docker_networks w) (containerActivity w).

Definition set_logs (f : list LogRow -> list LogRow) (w : World) : World :=
  mkWorld (containers w) (exercise_progress w) (docker_images w) (f (system_logs w))
          (docker_available w) (docker_containers w) (docker_networks w) (containerActivity w).

Definition set_docker_containers (f : list DockerContainer -> list DockerContainer)
    (w : World) : World :=
  mkWorld (containers w) (exercise_progress w) (docker_images w) (system_logs w)
          (docker_available w) (f (docker_containers w)) (docker_networks w) (containerActivity w).

Definition set_docker_networks (f : list string -> list string) (w : World) : World :=
  mkWorld (containers w) (exercise_progress w) (docker_images w) (system_logs w)
          (docker_available w) (docker_containers w) (f (docker_networks w)) (containerActivity w).

Definition set_activity (f : list string -> list string) (w : World) : World :=
  mkWorld (containers w) (exercise_progress w) (docker_images w) (system_logs w)
          (docker_available w) (docker_containers w) (docker_networks w) (f (containerActivity w)).

(** ** Async functions: state passing with exceptions *)

Inductive Res (A : Type) : Type :=
  | Ok (a : A)
  | Throw (message : string).
Arguments Ok {A} a.
Arguments Throw {A} message.

Definition M (A : Type) : Type := World -> Res A * World.

Definition ret {A} (a : A) : M A := fun w => (Ok a, w).

Definition throw {A} (message : string) : M A := fun w => (Throw message, w).

Definition bind {A B} (m : M A) (k : A -> M B) : M B :=
  fun w => match m w with
           | (Ok a, w') => k a w'
           | (Throw e, w') => (Throw e, w')
           end.

(** [try { m } catch (error) { h(error) }] *)
Definition try_catch {A} (m : M A) (h : string -> M A) : M A :=
  fun w => match m w with
           | (Ok a, w') => (Ok a, w')
           | (Throw e, w') => h e w'
           end.

Definition gets {A} (f : World -> A) : M A := fun w => (Ok (f w), w).

Definition modify (f : World -> World) : M unit := fun w => (Ok tt, f w).

Declare Scope js_scope.
Delimit Scope js_scope with js.
Notation "x <- m ;; k" := (bind m (fun x => k))
  (at level 61, m at next level, right associativity) : js_scope.
Notation "m ;;; k" := (bind m (fun _ => k))
  (at level 61, right associativity) : js_scope.
Open Scope js_scope.

(** ** HTTP responses *)

Inductive Field : Type :=
  | FStr (s : string)
  | FBool (b : bool)
  | FObj (fields : list (string * string)).

Record Response : Type := mkResponse {
  code : Z;
  body : list (string * Field)
}.

(** What a route's outer [try]/[catch] sends when the handler throws. *)
Definition internal_error : Response :=
  mkResponse 500 [("error", FStr "Internal server error")].

(** A route: run the handler; an escaping exception is answered by
    [on_error]. The world is whatever the handler left. *)
Definition route (handler : M Response) (on_error : string -> Response) (w : World)
  : Response * World :=
  match handler w with
  | (Ok r, w') => (r, w')
  | (Throw e, w') => (on_error e, w')
  end.

(* ===================================================================== *)
(** * Services                                                             *)
(* ===================================================================== *)

(** ** [src/services/logger.js] *)
Module SystemLogger.

Definition logEvent (eventType : string) (userId : Z) (targetId : string)
    (details : list (string * Detail)) : M unit :=
  modify (set_logs (fun l => (l ++ [mkLog eventType userId targetId details])%list)).

End SystemLogger.

(** ** [src/services/docker.js] *)
Module DockerService.

Definition CONTAINER_IDLE_TIMEOUT : Z := 15 * 60 * 1000.
Definition CONTAINER_MAX_LIFETIME : Z := 2 * 60 * 60 * 1000.

(** What the outside decides during one [createContainer]: the value of
    [uuidv4()], whether the daemon creates and starts the container and
    under which id, the host port read back by [inspect] ([None]: no
    binding, the property access throws), and the clock. *)
Record LaunchEnv : Type := mkLaunchEnv {
  uuid : string;
  create_result : option string;
  start_ok : bool;
  inspect_port : option string;
  launch_now : Z
}.

(** Outcome of the daemon calls of one [stopContainer]; both calls sit in
    their own [try]/[catch] that only logs. *)
Record StopEnv : Type := mkStopEnv {
  stop_ok : bool;
  remove_ok : bool
}.

Definition isAvailable : M bool := gets docker_available.

(** The daemon filters network names by substring; the model has exact
    names. *)
Definition ensure_network : M unit :=
  networks <- gets (fun w => filter (String.eqb "training_network") (docker_networks w)) ;;
  match networks with
  | [] => modify (set_docker_networks (fun l => (l ++ ["training_network"])%list))
  | _ :: _ => ret tt
  end.

Definition docker_createContainer (env : LaunchEnv) (image name subdomain : string)
    (userId imageId : Z) : M string :=
  match create_result env with
  | None => throw "docker: create failed"
  | Some id =>
      modify (set_docker_containers (fun l => (l ++
        [mkDocker id name image
           [("training.subdomain", subdomain);
            ("training.user", Js.to_string (Js.JNum userId));
            ("training.image", Js.to_string (Js.JNum imageId))]
           "training_network" false])%list)) ;;;
      ret id
  end.

Definition mark_running (id : string) (b : bool) (d : DockerContainer) : DockerContainer :=
  if (d_id d =? id)%string
  then mkDocker (d_id d) (d_name d) (d_image d) (d_labels d) (d_network d) b
  else d.

Definition docker_start (env : LaunchEnv) (id : string) : M unit :=
  if start_ok env
  then modify (set_docker_containers (map (mark_running id true)))
  else throw "docker: start failed".

Definition docker_inspect_port (env : LaunchEnv) : M string :=
  match inspect_port env with
  | Some p => ret p
  | None => throw "Cannot read properties of undefined (reading '0')"
  end.

(** [container.stop()] inside [try]/[catch]. *)
Definition docker_stop (ok : bool) (id : string) : M unit :=
  if ok then modify (set_docker_containers (map (mark_running id false))) else ret tt.

(** [container.remove({ force: true, v: true })] inside [try]/[catch]. *)
Definition docker_remove (ok : bool) (id : string) : M unit :=
  if ok
  then modify (set_docker_containers (filter (fun d => negb (d_id d =? id)%string)))
  else ret tt.

(** [INSERT INTO containers ...]: rejected when [container_id] or
    [subdomain] (both UNIQUE) is already in the table. *)
Definition insert_container (row : ContainerRow) : M unit :=
  fun w =>
    if existsb (fun c => (container_id c =? container_id row)%string
                         || (subdomain c =? subdomain row)%string) (containers w)
    then (Throw "SQLITE_CONSTRAINT: UNIQUE constraint failed", w)
    else (Ok tt, set_containers (fun l => (l ++ [row])%list) w).

(** [global.containerActivity.set(subdomain, callback)]. The callback and
    the timer live in the closure of [monitorContainer]; the world keeps
    the key. The first [checkActivity] runs at once with idle time and
    lifetime 0 and only re-arms the timer. *)
Definition setupActivityMonitoring (subdomain : string) : M unit :=
  modify (set_activity (fun keys =>
    if existsb (String.eqb subdomain) keys then keys else (keys ++ [subdomain])%list)).

Definition monitorContainer (containerId subdomain : string) : M unit :=
  avail <- isAvailable ;;
  if negb avail then ret tt else setupActivityMonitoring subdomain.

Definition createContainer (env : LaunchEnv) (imageId userId : Z) : M (string * string) :=
  avail <- isAvailable ;;
  if negb avail then throw "Docker service is not available" else
  try_catch
    (ensure_network ;;;
     let subdomain := uuid env in
     let containerName := "training-" ++ subdomain in
     image <- gets (fun w => find (fun i => img_id i =? imageId) (docker_images w)) ;;
     match image with
     | None => throw "Image not found"
     | Some image =>
         container <- docker_createContainer env (img_image_id image) containerName
                        subdomain userId imageId ;;
         docker_start env container ;;;
         hostPort <- docker_inspect_port env ;;
         insert_container
           (mkContainer container imageId userId subdomain running hostPort (launch_now env)) ;;;
         monitorContainer container subdomain ;;;
         SystemLogger.logEvent "container_created" userId container
           [("image_id", DNum imageId); ("subdomain", DStr subdomain);
            ("host_port", DStr hostPort)] ;;;
         ret (container, subdomain ++ ".apptraining.dbg.local")
     end)
    (fun error => throw error).

Definition with_status (s : Status) (c : ContainerRow) : ContainerRow :=
  mkContainer (container_id c) (image_id c) (user_id c) (subdomain c) s
              (host_port c) (created_at c).

(** [UPDATE containers SET status = ? WHERE container_id = ?] *)
Definition update_status_by_id (s : Status) (containerId : string) : M unit :=
  modify (set_containers
    (map (fun c => if (container_id c =? containerId)%string then with_status s c else c))).

Definition stopContainer (env : StopEnv) (containerId : string) : M unit :=
  avail <- isAvailable ;;
  if negb avail then throw "Docker service is not available" else
  try_catch
    (containerInfo <- gets (fun w =>
        find (fun c => (container_id c =? containerId)%string) (containers w)) ;;
     docker_stop (stop_ok env) containerId ;;;
     docker_remove (remove_ok env) containerId ;;;
     match containerInfo with
     | Some info =>
         SystemLogger.logEvent "container_stopped" (user_id info) containerId
           [("image_id", DNum (image_id info))]
     | None => ret tt
     end ;;;
     update_status_by_id stopped containerId ;;;
     row <- gets (fun w =>
        find (fun c => (container_id c =? containerId)%string) (containers w)) ;;
     match row with
     | Some row =>
         if negb (subdomain row =? "")%string
         then modify (set_activity (filter (fun k => negb (k =? subdomain row)%string)))
         else ret tt
     | None => ret tt
     end)
    (fun error => throw error).

(** One tick of the watcher of [monitorContainer], with the closure
    variables [lastActivity] and [startTime] and the clock [now] (all in
    milliseconds). The result tells whether the timer was re-armed. *)
Definition checkActivity (env : StopEnv) (containerId : string)
    (lastActivity startTime now : Z) : M bool :=
  let idleTime := now - lastActivity in
  let lifetime := now - startTime in
  if (CONTAINER_IDLE_TIMEOUT <=? idleTime) || (CONTAINER_MAX_LIFETIME <=? lifetime)
  then try_catch (stopContainer env containerId) (fun _ => ret tt) ;;; ret false
  else ret true.

Definition complete_progress (now userId imageId : Z) (p : ProgressRow) : ProgressRow :=
  if (p_user_id p =? userId) && (p_image_id p =? imageId)
  then mkProgress (p_user_id p) (p_image_id p) progress_completed (attempts p) (Some now)
  else p.

Definition handleExerciseCompletion (now : Z) (subdomain_ : string) (data : string)
  : M bool :=
  try_catch
    (containerInfo <- gets (fun w =>
        find (fun c => (subdomain c =? subdomain_)%string) (containers w)) ;;
     match containerInfo with
     | None => throw "Container not found"
     | Some containerInfo =>
         SystemLogger.logEvent "exercise_completed" (user_id containerInfo)
           (container_id containerInfo)
           [("image_id", DNum (image_id containerInfo)); ("completion_data", DStr data)] ;;;
         modify (set_progress
           (map (complete_progress now (user_id containerInfo) (image_id containerInfo)))) ;;;
         modify (set_containers
           (map (fun c => if (subdomain c =? subdomain_)%string
                          then with_status completed c else c))) ;;;
         ret true
     end)
    (fun error => throw error).

Definition has_label (key : string) (d : DockerContainer) : bool :=
  existsb (fun kv => (fst kv =? key)%string) (d_labels d).

(** The daemon's answers during one [cleanupResources]: whether
    [docker.listContainers] answers, whether the forced removal of the
    container with a given id succeeds, and whether [docker.pruneContainers]
    and [docker.pruneNetworks] succeed. A call that fails changes nothing
    in the runtime. [docker.pruneVolumes] comes last and volumes are not
    part of the world, so its failure, caught by the outer [catch] like the
    others, is not observable. *)
Record CleanupEnv : Type := mkCleanupEnv {
  list_ok : bool;
  orphan_remove_ok : string -> bool;
  prune_containers_ok : bool;
  prune_networks_ok : bool
}.

(** [docker.listContainers({all: true, filters: {label: ['training.user']}})] *)
Definition docker_listContainers (env : CleanupEnv) : M (list DockerContainer) :=
  if list_ok env
  then gets (fun w => filter (has_label "training.user") (docker_containers w))
  else throw "docker: cannot list the containers".

(** The loop over [dockerContainers]: force-remove every listed container
    whose id is in no row of the snapshot [dbContainers]. The removal has
    its own [try]/[catch]: a removal that fails is logged and the loop
    goes on. *)
Fixpoint remove_orphans (env : CleanupEnv) (dbContainers : list ContainerRow)
    (dockerContainers : list DockerContainer) : M unit :=
  match dockerContainers with
  | [] => ret tt
  | dockerContainer :: rest =>
      let containerId := d_id dockerContainer in
      match find (fun c => (container_id c =? containerId)%string) dbContainers with
      | None =>
          try_catch
            (if orphan_remove_ok env containerId
             then docker_remove true containerId
             else throw "docker: cannot remove the container")
            (fun _ => ret tt)
      | Some _ => ret tt
      end ;;;
      remove_orphans env dbContainers rest
  end.

Definition pruneContainers (env : CleanupEnv) : M unit :=
  if prune_containers_ok env
  then modify (set_docker_containers (filter d_running))
  else throw "docker: cannot prune the containers".

Definition pruneNetworks (env : CleanupEnv) : M unit :=
  if prune_networks_ok env
  then modify (fun w => set_docker_networks
         (filter (fun n => existsb (String.eqb n) ["bridge"; "host"; "none"]
                           || existsb (fun d => (d_network d =? n)%string)
                                      (docker_containers w)))
         w)
  else throw "docker: cannot prune the networks".

(** [now] is sqlite's clock in seconds; 24 hours are 86400 of them. The
    [DELETE] comes after [docker.listContainers]: when the listing throws,
    the outer [catch] is reached before any record is purged. *)
Definition cleanupResources (env : CleanupEnv) (now : Z) : M unit :=
  avail <- isAvailable ;;
  if negb avail then ret tt else
  try_catch
    (dbContainers <- gets containers ;;
     dockerContainers <- docker_listContainers env ;;
     modify (set_containers
       (filter (fun c => negb (Status_eqb (status c) stopped
                               && (created_at c <? now - 86400))))) ;;;
     remove_orphans env dbContainers dockerContainers ;;;
     pruneContainers env ;;;
     pruneNetworks env ;;;
     ret tt)
    (fun _ => ret tt).

End DockerService.

(* ===================================================================== *)
(** * Routes                                                               *)
(* ===================================================================== *)

(** ** [src/routes/containers.js] and the force-stop of [src/routes/admin.js]

    [userId] is [req.session.userId] of a request that [isAuthenticated]
    let through; [imageId] is the route parameter, compared by sqlite under
    the INTEGER affinity of the columns. *)
Module Containers.

Import DockerService.

Definition is_running_for (userId imageId : Z) (c : ContainerRow) : bool :=
  (user_id c =? userId) && (image_id c =? imageId) && Status_eqb (status c) running.

Definition is_running_of (userId : Z) (c : ContainerRow) : bool :=
  (user_id c =? userId) && Status_eqb (status c) running.

(** [SELECT COUNT( * ) ... WHERE user_id = ? AND status = 'running'] *)
Definition count_running (userId : Z) (w : World) : Z :=
  Z.of_nat (List.length (filter (is_running_of userId) (containers w))).

Definition already_running (existingContainer : ContainerRow) : Response :=
  mkResponse 400
    [("error", FStr "Container already running for this exercise");
     ("containerId", FStr (container_id existingContainer));
     ("subdomain", FStr (subdomain existingContainer ++ ".apptraining.dbg.local"));
     ("message", FStr "You already have a running instance of this exercise. Please use the existing container or stop it first.")].

Definition limit_reached : Response :=
  mkResponse 400
    [("error", FStr "Maximum container limit reached");
     ("message", FStr "You can only have 3 active containers at a time. Please stop an existing container before launching a new one.")].

Definition is_progress_of (userId imageId : Z) (p : ProgressRow) : bool :=
  (p_user_id p =? userId) && (p_image_id p =? imageId).

(** [INSERT OR REPLACE INTO exercise_progress (user_id, image_id, status,
    attempts) VALUES (?, ?, 'in_progress', COALESCE((SELECT attempts + 1
    ...), 1))]: the value list is evaluated on the old table, the rows in
    conflict on UNIQUE(user_id, image_id) are deleted, the new row is
    inserted with [completed_at] at its default NULL. *)
Definition replace_progress (userId imageId : Z) (table : list ProgressRow)
  : list ProgressRow :=
  let attempts_ :=
    match find (is_progress_of userId imageId) table with
    | Some p => attempts p + 1
    | None => 1
    end in
  (filter (fun p => negb (is_progress_of userId imageId p)) table
   ++ [mkProgress userId imageId in_progress attempts_ None])%list.

(** [router.post('/launch/:imageId', isAuthenticated, ...)] *)
Definition launch (env : LaunchEnv) (userId imageId : Z) : World -> Response * World :=
  route
    (existingContainer <- gets (fun w => find (is_running_for userId imageId) (containers w)) ;;
     match existingContainer with
     | Some existingContainer => ret (already_running existingContainer)
     | None =>
         count <- gets (count_running userId) ;;
         if 3 <=? count then ret limit_reached else
         containerInfo <- createContainer env imageId userId ;;
         modify (set_progress (replace_progress userId imageId)) ;;;
         ret (mkResponse 200 [("containerId", FStr (fst containerInfo));
                              ("subdomain", FStr (snd containerInfo))])
     end)
    (fun _ => internal_error).

(** [router.post('/:containerId/stop', isAuthenticated, ...)] *)
Definition stop (env : StopEnv) (userId : Z) (containerId : string)
  : World -> Response * World :=
  route
    (container <- gets (fun w =>
        find (fun c => (container_id c =? containerId)%string && (user_id c =? userId))
             (containers w)) ;;
     match container with
     | None => ret (mkResponse 404 [("error", FStr "Container not found")])
     | Some _ =>
         stopContainer env containerId ;;;
         ret (mkResponse 200 [("message", FStr "Container stopped successfully")])
     end)
    (fun _ => internal_error).

(** [router.post('/containers/:containerId/stop', isAdmin, ...)] of the
    admin router. *)
Definition admin_stop (env : StopEnv) (containerId : string) : World -> Response * World :=
  route
    (stopContainer env containerId ;;;
     ret (mkResponse 200 [("message", FStr "Container stopped successfully")]))
    (fun _ => internal_error).

(** [router.post('/:subdomain/complete', ...)] *)
Definition complete (now : Z) (subdomain_ : string) (reqBody : string)
  : World -> Response * World :=
  route
    (result <- handleExerciseCompletion now subdomain_ reqBody ;;
     ret (mkResponse 200 [("success", FBool result)]))
    (fun _ => internal_error).

End Containers.

(** ** [src/middleware/subdomain.js] *)
Module Subdomain.

Inductive Outcome : Type :=
  | Next
  | Send (r : Response)
  | Proxy (target : string).

Definition extractSubdomain (hostname : string) : option string :=
  let parts := Js.split "." hostname in
  if (2 <? List.length parts)%nat then Some (hd EmptyString parts) else None.

(** [SELECT * FROM containers WHERE subdomain = ? AND status = 'running'] *)
Definition getContainerInfo (subdomain_ : string) (w : World) : option ContainerRow :=
  find (fun c => (subdomain c =? subdomain_)%string && Status_eqb (status c) running)
       (containers w).

Definition not_running (subdomain_ : string) : Response :=
  mkResponse 404 [("error", FStr "Container not found or not running");
                  ("subdomain", FStr subdomain_)].

Section Handler.

(** [validate] of the package [uuid]. *)
Variable validateUUID : string -> bool.

(** The activity callback stored under the subdomain only writes the
    [lastActivity] variable of the watcher's closure; the world is not
    changed by a request. *)
Definition subdomainHandler (w : World) (hostname : string) : Outcome :=
  match extractSubdomain hostname with
  | None => Next
  | Some subdomain_ =>
      if (subdomain_ =? "")%string || negb (validateUUID subdomain_) then Next
      else match getContainerInfo subdomain_ w with
           | None => Send (not_running subdomain_)
           | Some container => Proxy ("http://localhost:" ++ host_port container)
           end
  end.

End Handler.

Definition is_hex (c : ascii) : bool :=
  let n := N_of_ascii c in
  Js.in_range 48 57 n || Js.in_range 97 102 n || Js.in_range 65 70 n.

(** The character the pattern of the package [uuid] allows at position
    [i]: a dash at 8, 13, 18 and 23, a version digit 1 to 5 at 14, a
    variant digit 8, 9, a or b at 19, a hexadecimal digit elsewhere; the
    pattern ignores case. *)
Definition uuid_char (i : nat) (c : ascii) : bool :=
  if existsb (Nat.eqb i) [8; 13; 18; 23]%nat then Ascii.eqb c "-"
  else if (i =? 14)%nat then existsb (Ascii.eqb c) ["1"; "2"; "3"; "4"; "5"]%char
  else if (i =? 19)%nat then existsb (Ascii.eqb c) ["8"; "9"; "a"; "b"; "A"; "B"]%char
  else is_hex c.

Fixpoint uuid_from (i : nat) (s : string) : bool :=
  match s with
  | EmptyString => true
  | String c r => uuid_char i c && uuid_from (S i) r
  end.

Definition NIL : string := "00000000-0000-0000-0000-000000000000".

(** [validate] of the package [uuid], which the middleware imports as
    [validateUUID]: the string is matched against
    [/^(?:[0-9a-f]{8}-[0-9a-f]{4}-[1-5][0-9a-f]{3}-[89ab][0-9a-f]{3}-[0-9a-f]{12}|00000000-0000-0000-0000-000000000000)$/i],
    so a UUID of any of the versions 1 to 5 and the nil UUID are accepted,
    not version 4 only. *)
Definition validate (s : string) : bool :=
  ((String.length s =? 36)%nat && uuid_from 0 s) || (s =? NIL)%string.

End Subdomain.

(** ** [src/routes/exercises.js]: bundle validation of the upload route *)
Module Exercises.

Record Metadata : Type := mkMetadata {
  title : Js.value;
  description : Js.value;
  level : Js.value;
  version : Js.value
}.

(** [JSON.parse(metadataContent)]: a syntax error, [null], or a value whose
    four fields are read (a field that is absent, or any field of a
    primitive or an array, is [JUndefined]). *)
Inductive Parsed : Type :=
  | ParseError (message : string)
  | ParsedNull
  | ParsedValue (metadata : Metadata).

(** What the handler meets on its way: [req.file], the outcome of the
    extraction, [fs.readdir(extractPath)], the parsed metadata, and the
    first error of the build block (tar, docker build, INSERT) if any. *)
Record Upload : Type := mkUpload {
  file : bool;
  extract_error : option string;
  files : list string;
  parsed : Parsed;
  build_error : option string
}.

Definition includes (x : string) (l : list string) : bool := existsb (String.eqb x) l.

Definition validLevels : list string := ["beginner"; "intermediate"; "advanced"].

(** [metadata.version || 'latest'] *)
Definition version_or_latest (metadata : Metadata) : Js.value :=
  if Js.truthy (version metadata) then version metadata else Js.JStr "latest".

(** The template literal of [imageTag]; [None] is the TypeError of
    [metadata.title.toLowerCase] on a title that is not a string. *)
Definition imageTag (metadata : Metadata) : option string :=
  match Js.call_toLowerCase (title metadata) with
  | None => None
  | Some lowered =>
      Some ("training/" ++ Js.replace_spaces lowered ++ ":"
            ++ Js.to_string (version_or_latest metadata))
  end.

(** The level block: the message of the Error thrown, or [levelValue]. *)
Definition check_level (metadata : Metadata) : string + string :=
  if negb (Js.truthy (level metadata))
  then inl "Missing required metadata field: level"
  else match Js.call_toLowerCase (level metadata) with
       | None => inl "metadata.level.toLowerCase is not a function"
       | Some levelValue =>
           if negb (includes levelValue validLevels)
           then inl "Level must be one of: beginner, intermediate, advanced"
           else inr levelValue
       end.

(** The metadata checks after [JSON.parse], up to the image tag: the
    message of the Error thrown, or [levelValue] and [imageTag]. *)
Definition validate_metadata (metadata : Metadata) : string + string * string :=
  if negb (Js.truthy (title metadata))
  then inl "Missing required metadata field: title"
  else if negb (Js.truthy (description metadata))
  then inl "Missing required metadata field: description"
  else match check_level metadata with
       | inl message => inl message
       | inr levelValue =>
           match imageTag metadata with
           | None => inl "metadata.title.toLowerCase is not a function"
           | Some tag => inr (levelValue, tag)
           end
       end.

(** Everything between the extraction and the docker build. *)
Definition validate (u : Upload) : string + Metadata * (string * string) :=
  match extract_error u with
  | Some message => inl ("Failed to extract exercise files: " ++ message)
  | None =>
      if negb (includes "Dockerfile" (files u))
      then inl "Missing required file: Dockerfile"
      else if negb (includes "metadata.json" (files u))
      then inl "Missing required file: metadata.json"
      else match parsed u with
           | ParseError message => inl ("Invalid metadata.json format: " ++ message)
           | ParsedNull => inl "Cannot read properties of null (reading 'title')"
           | ParsedValue metadata =>
               match validate_metadata metadata with
               | inl message => inl message
               | inr checked => inr (metadata, checked)
               end
           end
  end.

Definition bad_request (message : string) : Response :=
  mkResponse 400 [("error", FStr message)].

(** [router.post('/upload', isAdmin, upload.single('exercise'), ...)]: every
    Error thrown reaches the outer [catch], which answers 400 with its
    message. *)
Definition upload (u : Upload) : Response :=
  if negb (file u) then bad_request "No file uploaded" else
  match validate u with
  | inl message => bad_request message
  | inr (metadata, (levelValue, tag)) =>
      match build_error u with
      | Some message => bad_request ("Failed to build Docker image: " ++ message)
      | None =>
          mkResponse 200
            [("message", FStr "Exercise uploaded successfully");
             ("image", FObj [("name", Js.to_string (title metadata));
                             ("version", Js.to_string (version_or_latest metadata));
                             ("tag", tag)])]
      end
  end.

End Exercises.

(* ===================================================================== *)
(** * The specification's wording, where it is compared with the code      *)
(* ===================================================================== *)

Module Spec.

(** A valid UUIDv4, the pattern the specification fixes for subdomains: the
    36-character form 8-4-4-4-12 of hexadecimal digits with version digit
    4 and variant digit 8, 9, a or b. *)
Definition uuid_v4_char (i : nat) (c : ascii) : bool :=
  if existsb (Nat.eqb i) [8; 13; 18; 23]%nat then Ascii.eqb c "-"
  else if (i =? 14)%nat then Ascii.eqb c "4"
  else if (i =? 19)%nat then existsb (Ascii.eqb c) ["8"; "9"; "a"; "b"; "A"; "B"]%char
  else Subdomain.is_hex c.

Fixpoint uuid_v4_from (i : nat) (s : string) : bool :=
  match s with
  | EmptyString => true
  | String c r => uuid_v4_char i c && uuid_v4_from (S i) r
  end.

Definition uuid_v4 (s : string) : bool :=
  (String.length s =? 36)%nat && uuid_v4_from 0 s.

(** The maximal runs of a string: consecutive code units of the same
    class, whitespace ([true]) or not. *)
Fixpoint runs (s : string) : list (bool * string) :=
  match s with
  | EmptyString => []
  | String c r =>
      match runs r with
      | (b, w) :: t =>
          if Bool.eqb b (Js.is_space c) then (b, String c w) :: t
          else (Js.is_space c, String c EmptyString) :: (b, w) :: t
      | [] => [(Js.is_space c, String c EmptyString)]
      end
  end.

(** Each whitespace run becomes one '-'; the other runs are kept. *)
Fixpoint render (l : list (bool * string)) : string :=
  match l with
  | [] => EmptyString
  | (b, w) :: t => (if b then "-" else w) ++ render t
  end.

(** "slug lowercases and replaces runs of whitespace with '-'" *)
Definition slug (title : string) : string := render (runs (Js.toLowerCase title)).

(** "version is the metadata version field when present and the string
    latest otherwise" *)
Definition version_when_present (v : Js.value) : string :=
  match v with
  | Js.JUndefined => "latest"
  | _ => Js.to_string v
  end.

(** "training/<slug(title)>:<version>" *)
Definition image_tag (title : string) (v : Js.value) : string :=
  "training/" ++ slug title ++ ":" ++ version_when_present v.

End Spec.

(** The status of the record of a container id, if there is one. *)
Definition status_of (containerId : string) (w : World) : option Status :=
  option_map status (find (fun c => (container_id c =? containerId)%string) (containers w)).

(** A runtime container with this id exists. *)
Definition in_runtime (containerId : string) (w : World) : bool :=
  existsb (fun d => (d_id d =? containerId)%string) (docker_containers w).

(** The tag of an accepted bundle, as the specification words it. *)
Definition tag_as_specified (metadata : Exercises.Metadata) : Prop :=
  forall levelValue tag t,
    Exercises.validate_metadata metadata = inr (levelValue, tag) ->
    Exercises.title metadata = Js.JStr t ->
    tag = Spec.image_tag t (Exercises.version metadata).

(** The world after a completion callback that found the record [info]. *)
Definition after_completion (now : Z) (subdomain_ data : string) (info : ContainerRow)
    (w : World) : World :=
  mkWorld
    (map (fun c => if (subdomain c =? subdomain_)%string
                   then DockerService.with_status completed c else c)
         (containers w))
    (map (DockerService.complete_progress now (user_id info) (image_id info))
         (exercise_progress w))
    (docker_images w)
    (system_logs w ++
       [mkLog "exercise_completed" (user_id info) (container_id info)
              [("image_id", DNum (image_id info)); ("completion_data", DStr data)]])%list
    (docker_available w) (docker_containers w) (docker_networks w) (containerActivity w).

(** The row-wise effect of [UPDATE containers SET status = 'stopped' WHERE
    container_id = ?]. *)
Definition mark_stopped (containerId : string) (c : ContainerRow) : ContainerRow :=
  if (container_id c =? containerId)%string then DockerService.with_status stopped c else c.

(** The rows that the DELETE of the reconciliation pass keeps. *)
Definition not_purged (now : Z) (c : ContainerRow) : bool :=
  negb (Status_eqb (status c) stopped && (created_at c <? now - 86400)).

(** The stop procedure leaves a completed record completed. *)
Definition stop_keeps_completed (env : DockerService.StopEnv) (containerId : string)
    (w : World) : Prop :=
  status_of containerId w = Some completed ->
  status_of containerId (snd (DockerService.stopContainer env containerId w))
  = Some completed.


(** A launch gets as far as the registry insert: the policy checks pass
    and the daemon creates and starts the container [id] and reports
    [port]. *)
Definition reaches_insert (env : DockerService.LaunchEnv) (userId imageId : Z) (w : World)
    (id port : string) : Prop :=
  docker_available w = true
  /\ find (Containers.is_running_for userId imageId) (containers w) = None
  /\ Containers.count_running userId w < 3
  /\ (exists image, find (fun i => img_id i =? imageId) (docker_images w) = Some image)
  /\ DockerService.create_result env = Some id
  /\ DockerService.start_ok env = true
  /\ DockerService.inspect_port env = Some port.

(** The registry insert of that launch is rejected. *)
Definition insert_rejected (env : DockerService.LaunchEnv) (w : World) (id : string) : Prop :=
  existsb (fun c => (container_id c =? id)%string
                    || (subdomain c =? DockerService.uuid env)%string) (containers w)
  = true.

(** When the insert fails the new runtime container is gone by the time
    the launch returns. *)
Definition rollback_as_specified (env : DockerService.LaunchEnv) (userId imageId : Z)
    (w : World) : Prop :=
  forall id port,
    reaches_insert env userId imageId w id port ->
    insert_rejected env w id ->
    in_runtime id (snd (Containers.launch env userId imageId w)) = false.

(** The completion callback of an unknown subdomain is answered 404 and
    changes nothing. *)
Definition unknown_subdomain_404 (now : Z) (subdomain_ data : string) (w : World) : Prop :=
  (forall c, In c (containers w) -> subdomain c <> subdomain_) ->
  code (fst (Containers.complete now subdomain_ data w)) = 404
  /\ snd (Containers.complete now subdomain_ data w) = w.

(** The routing of a hostname as the specification words it, with
    UUIDv4 as the pattern of a subdomain, for the handler with the
    validator the middleware imports. *)
Definition routing_as_specified (w : World) (hostname : string) : Prop :=
  let labels := Js.split "." hostname in
  let label := hd EmptyString labels in
  ((3 <= List.length labels)%nat ->
   Spec.uuid_v4 label = true ->
   (forall c, In c (containers w) -> subdomain c = label -> status c <> running) ->
   Subdomain.subdomainHandler Subdomain.validate w hostname
   = Subdomain.Send (mkResponse 404 [("error", FStr "Container not found or not running");
                                     ("subdomain", FStr label)]))
  /\ ((List.length labels < 3)%nat \/ Spec.uuid_v4 label = false ->
      Subdomain.subdomainHandler Subdomain.validate w hostname = Subdomain.Next).

(** Any launch of a subject at the limit is denied with the quota error. *)
Definition quota_denied (env : DockerService.LaunchEnv) (userId imageId : Z) (w : World)
  : Prop :=
  3 <= Containers.count_running userId w ->
  Containers.launch env userId imageId w = (Containers.limit_reached, w).



(** Unfolding of the monad's operations in proofs. *)
Ltac run_monad :=
  cbv [bind ret throw try_catch gets modify route
       DockerService.isAvailable SystemLogger.logEvent].

(* ===================================================================== *)
(** * Sample data                                                          *)
(* ===================================================================== *)

Definition uuid_a : string := "6f1c2a9e-3b7d-4c1a-9e2f-5a8b7c6d4e3f".
Definition uuid_b : string := "0b9d8c7e-6f5a-4b3c-8d2e-1f0a9b8c7d6e".
Definition uuid_c : string := "a1b2c3d4-e5f6-4a7b-b8c9-d0e1f2a3b4c5".

(** A time-based (version 1) UUID. *)
Definition uuid_v1 : string := "c232ab00-9414-11ec-b3c8-9f6bdeced846".

Definition image_1 : ImageRow :=
  mkImage 1 "SQL Injection" "latest" "Find the flaw" "beginner" "training/sql-injection:latest".

Definition runtime_of (id sub : string) (userId imageId : string) : DockerContainer :=
  mkDocker id ("training-" ++ sub) "training/sql-injection:latest"
           [("training.subdomain", sub); ("training.user", userId);
            ("training.image", imageId)]
           "training_network" true.

(** User 7 has completed exercise 1 in container c1, which still runs. *)
Definition world_completed : World :=
  mkWorld [mkContainer "c1" 1 7 uuid_a completed "32768" 1000]
          [mkProgress 7 1 progress_completed 1 (Some 1600)]
          [image_1] [] true
          [runtime_of "c1" uuid_a "7" "1"] ["bridge"; "training_network"] [uuid_a].


(** The registry keeps a stopped record under the subdomain that the next
    [uuidv4()] returns. *)
Definition world_collision : World :=
  mkWorld [mkContainer "c0" 1 8 uuid_a stopped "32700" 1000]
          [] [image_1] [] true [] ["bridge"] [].

Definition env_collision : DockerService.LaunchEnv :=
  DockerService.mkLaunchEnv uuid_a (Some "c-new") true (Some "32768") 2000.

(** User 7 runs three containers, one of them for exercise 1. *)
Definition world_quota : World :=
  mkWorld [mkContainer "c1" 1 7 uuid_a running "32768" 1000;
           mkContainer "c2" 2 7 uuid_b running "32769" 1001;
           mkContainer "c3" 3 7 uuid_c running "32770" 1002]
          [] [image_1] [] true
          [runtime_of "c1" uuid_a "7" "1"; runtime_of "c2" uuid_b "7" "2";
           runtime_of "c3" uuid_c "7" "3"]
          ["bridge"; "training_network"] [uuid_a; uuid_b; uuid_c].

Definition env_fresh : DockerService.LaunchEnv :=
  DockerService.mkLaunchEnv "9c8b7a6d-5e4f-4a3b-9c2d-1e0f9a8b7c6d" (Some "c-new") true
                            (Some "32771") 2000.

(** User 7 works on exercise 1 in container c1. *)
Definition world_in_progress : World :=
  mkWorld [mkContainer "c1" 1 7 uuid_a running "32768" 1000]
          [mkProgress 7 1 in_progress 2 None]
          [image_1] [] true
          [runtime_of "c1" uuid_a "7" "1"] ["bridge"; "training_network"] [uuid_a].

Definition stop_env_ok : DockerService.StopEnv := DockerService.mkStopEnv true true.

(** A reconciliation pass during which every daemon call succeeds. *)
Definition cleanup_env_ok : DockerService.CleanupEnv :=
  DockerService.mkCleanupEnv true (fun _ => true) true true.

(** A pass during which the daemon does not answer [listContainers]. *)
Definition cleanup_env_unlisted : DockerService.CleanupEnv :=
  DockerService.mkCleanupEnv false (fun _ => true) true true.

(** A pass during which the daemon lists and prunes but refuses every
    forced removal. *)
Definition cleanup_env_refused : DockerService.CleanupEnv :=
  DockerService.mkCleanupEnv true (fun _ => false) true true.

(** A bundle whose [metadata.json] carries an empty version string. *)
Definition metadata_empty_version : Exercises.Metadata :=
  Exercises.mkMetadata (Js.JStr "SQL  Injection 101") (Js.JStr "Find the flaw")
                       (Js.JStr "Beginner") (Js.JStr "").

Definition upload_of (metadata : Exercises.Metadata) : Exercises.Upload :=
  Exercises.mkUpload true None ["Dockerfile"; "metadata.json"; "app.js"]
                     (Exercises.ParsedValue metadata) None.

Definition metadata_expert : Exercises.Metadata :=
  Exercises.mkMetadata (Js.JStr "Reversing") (Js.JStr "Read the script")
                       (Js.JStr "Expert") Js.JUndefined.

(* ===================================================================== *)
(** * Further routes and derived notions                                   *)
(* ===================================================================== *)

Definition set_docker_images (f : list ImageRow -> list ImageRow) (w : World) : World :=
  mkWorld (containers w) (exercise_progress w) (f (docker_images w)) (system_logs w)
          (docker_available w) (docker_containers w) (docker_networks w) (containerActivity w).

(** ** [src/routes/exercises.js]: deletion of an exercise *)
Module Catalog.

(** [router.delete('/:id', isAdmin, ...)], behind [isAdmin]. The image
    store of the daemon is not part of the world; the call
    [dockerImage.remove] sits in a [try]/[catch] that only logs. The rows
    of [containers] and [exercise_progress] that name the exercise are not
    touched. *)
Definition delete (id : Z) : World -> Response * World :=
  route
    (image <- gets (fun w => find (fun i => img_id i =? id) (docker_images w)) ;;
     match image with
     | None => ret (mkResponse 404 [("error", FStr "Exercise not found")])
     | Some _ =>
         modify (set_docker_images (filter (fun i => negb (img_id i =? id)))) ;;;
         ret (mkResponse 200 [("message", FStr "Exercise deleted successfully")])
     end)
    (fun _ => internal_error).

End Catalog.

(** ** [src/routes/admin.js]: deletion of a user; [isAdmin] of
    [src/routes/auth.js] *)
Module Admin.

Inductive Role : Type := admin | user.

(** A row of [users]; [password] is the stored hash. *)
Record UserRow : Type := mkUser {
  u_id : Z;
  username : string;
  password : string;
  role : Role;
  u_created_at : Z
}.

(** The world together with the table [users]. *)
Record Site : Type := mkSite {
  world : World;
  users : list UserRow
}.

(** [isAdmin]: [req.session.userRole === 'admin'], else 403. *)
Definition isAdmin (userRole : option Role) (next : Site -> Response * Site) (s : Site)
  : Response * Site :=
  match userRole with
  | Some admin => next s
  | _ => (mkResponse 403 [("error", FStr "Forbidden")], s)
  end.

(** The handler of [router.delete('/users/:userId', isAdmin, ...)]: the
    three DELETE statements run one after the other; nothing is asked of
    the docker daemon. *)
Definition delete_user_handler (userId : Z) (s : Site) : Response * Site :=
  match find (fun u => u_id u =? userId) (users s) with
  | None => (mkResponse 404 [("error", FStr "User not found")], s)
  | Some u =>
      match role u with
      | admin => (mkResponse 403 [("error", FStr "Cannot delete admin users")], s)
      | user =>
          (mkResponse 200 [("message", FStr "User deleted successfully")],
           mkSite
             (set_progress (filter (fun p => negb (p_user_id p =? userId)))
                (set_containers (filter (fun c => negb (user_id c =? userId))) (world s)))
             (filter (fun u => negb (u_id u =? userId)) (users s)))
      end
  end.

Definition delete_user (userRole : option Role) (userId : Z) : Site -> Response * Site :=
  isAdmin userRole (delete_user_handler userId).

End Admin.

(** ** Requests in sequence *)

(** The requests and timer events that change the world. *)
Inductive Request : Type :=
  | Launch (env : DockerService.LaunchEnv) (userId imageId : Z)
  | Stop (env : DockerService.StopEnv) (userId : Z) (containerId : string)
  | AdminStop (env : DockerService.StopEnv) (containerId : string)
  | Complete (now : Z) (subdomain_ data : string)
  | Tick (env : DockerService.StopEnv) (containerId : string) (lastActivity startTime now : Z)
  | Reconcile (env : DockerService.CleanupEnv) (now : Z)
  | DeleteExercise (id : Z).

Definition serve (r : Request) (w : World) : World :=
  match r with
  | Launch env userId imageId => snd (Containers.launch env userId imageId w)
  | Stop env userId containerId => snd (Containers.stop env userId containerId w)
  | AdminStop env containerId => snd (Containers.admin_stop env containerId w)
  | Complete now subdomain_ data => snd (Containers.complete now subdomain_ data w)
  | Tick env containerId lastActivity startTime now =>
      snd (DockerService.checkActivity env containerId lastActivity startTime now w)
  | Reconcile env now => snd (DockerService.cleanupResources env now w)
  | DeleteExercise id => snd (Catalog.delete id w)
  end.

Definition serve_all (requests : list Request) (w : World) : World :=
  fold_left (fun w r => serve r w) requests w.

(** The number of running records of one (user, exercise) pair. *)
Definition count_running_for (userId imageId : Z) (rows : list ContainerRow) : nat :=
  List.length (filter (Containers.is_running_for userId imageId) rows).

Definition count_running_of (userId : Z) (rows : list ContainerRow) : nat :=
  List.length (filter (Containers.is_running_of userId) rows).

(** The registry keeps its keys unique and the launch policy: at most 3
    running records per user, at most one per user and exercise. *)
Definition registry_ok (rows : list ContainerRow) : Prop :=
  NoDup (map container_id rows)
  /\ NoDup (map subdomain rows)
  /\ (forall userId, (count_running_of userId rows <= 3)%nat)
  /\ (forall userId imageId, (count_running_for userId imageId rows <= 1)%nat).

(** The row-wise effect of [UPDATE containers SET status = 'completed' WHERE
    subdomain = ?]. *)
Definition mark_completed (subdomain_ : string) (c : ContainerRow) : ContainerRow :=
  if (subdomain c =? subdomain_)%string then DockerService.with_status completed c else c.

(** The code unit occurs in the string. *)
Fixpoint has_char (c : ascii) (s : string) : bool :=
  match s with
  | EmptyString => false
  | String d r => Ascii.eqb d c || has_char c r
  end.

(** No code unit of the string is whitespace. *)
Fixpoint no_space (s : string) : bool :=
  match s with
  | EmptyString => true
  | String c r => negb (Js.is_space c) && no_space r
  end.

(** No code unit of the string is changed by [toLowerCase]. *)
Fixpoint all_lower (s : string) : bool :=
  match s with
  | EmptyString => true
  | String c r => Ascii.eqb (Js.lower_char c) c && all_lower r
  end.

(** The world after a [stopContainer] that found the docker client
    available. *)
Definition after_stop (env : DockerService.StopEnv) (containerId : string) (w : World)
  : World :=
  let info := find (fun c => (container_id c =? containerId)%string) (containers w) in
  mkWorld
    (map (mark_stopped containerId) (containers w))
    (exercise_progress w)
    (docker_images w)
    (system_logs w ++
       match info with
       | Some info => [mkLog "container_stopped" (user_id info) containerId
                             [("image_id", DNum (image_id info))]]
       | None => []
       end)%list
    (docker_available w)
    ((if DockerService.remove_ok env
      then filter (fun d => negb (d_id d =? containerId)%string)
      else fun l => l)
       ((if DockerService.stop_ok env
         then map (DockerService.mark_running containerId false)
         else fun l => l)
          (docker_containers w)))
    (docker_networks w)
    (match info with
     | Some info =>
         if negb (subdomain info =? "")%string
         then filter (fun k => negb (k =? subdomain info)%string) (containerActivity w)
         else containerActivity w
     | None => containerActivity w
     end).

(** The record that a launch inserts. *)
Definition launched_row (env : DockerService.LaunchEnv) (userId imageId : Z)
    (id port : string) : ContainerRow :=
  mkContainer id imageId userId (DockerService.uuid env) running port
              (DockerService.launch_now env).

(** The world after a [createContainer] in which every step succeeded. *)
Definition after_create (env : DockerService.LaunchEnv) (imageId userId : Z)
    (image : ImageRow) (id port : string) (w : World) : World :=
  let subdomain_ := DockerService.uuid env in
  mkWorld
    (containers w ++ [launched_row env userId imageId id port])%list
    (exercise_progress w)
    (docker_images w)
    (system_logs w ++
       [mkLog "container_created" userId id
              [("image_id", DNum imageId); ("subdomain", DStr subdomain_);
               ("host_port", DStr port)]])%list
    (docker_available w)
    (map (DockerService.mark_running id true)
       (docker_containers w ++
          [mkDocker id ("training-" ++ subdomain_) (img_image_id image)
             [("training.subdomain", subdomain_);
              ("training.user", Js.to_string (Js.JNum userId));
              ("training.image", Js.to_string (Js.JNum imageId))]
             "training_network" false])%list)
    (match filter (String.eqb "training_network") (docker_networks w) with
     | [] => (docker_networks w ++ ["training_network"])%list
     | _ :: _ => docker_networks w
     end)
    (if existsb (String.eqb subdomain_) (containerActivity w)
     then containerActivity w
     else (containerActivity w ++ [subdomain_])%list).

(** A world like [world_in_progress] in which the docker client could not
    be set up. *)
Definition world_no_docker : World :=
  mkWorld (containers world_in_progress) (exercise_progress world_in_progress)
          (docker_images world_in_progress) [] false
          (docker_containers world_in_progress) (docker_networks world_in_progress)
          (containerActivity world_in_progress).

(** An UPDATE that keeps the keys and the owner of every row and sets no
    row to 'running'. *)
Definition demotes (f : ContainerRow -> ContainerRow) : Prop :=
  forall c, container_id (f c) = container_id c
            /\ subdomain (f c) = subdomain c
            /\ user_id (f c) = user_id c
            /\ image_id (f c) = image_id c
            /\ (status (f c) = running -> status c = running).

(** The id has no record in the snapshot of the registry. *)
Definition unrecorded (dbContainers : list ContainerRow) (id : string) : bool :=
  match find (fun c => (container_id c =? id)%string) dbContainers with
  | None => true
  | Some _ => false
  end.

(** A runtime container outlives the orphan loop: none of the listed
    containers without a record, and whose removal the daemon carries
    out, has its id. *)
Definition outlives (env : DockerService.CleanupEnv) (dbContainers : list ContainerRow)
    (listed : list DockerContainer) (d : DockerContainer) : bool :=
  negb (existsb (fun o => unrecorded dbContainers (d_id o)
                          && DockerService.orphan_remove_ok env (d_id o)
                          && (d_id d =? d_id o)%string)
                listed).

(** The world after a reconciliation pass that found the docker client
    available and whose [listContainers] was answered. Exited containers
    go only when [pruneContainers] succeeds, and unused networks only when
    [pruneNetworks] is reached and succeeds. *)
Definition after_cleanup (env : DockerService.CleanupEnv) (now : Z) (w : World) : World :=
  let listed := filter (DockerService.has_label "training.user") (docker_containers w) in
  let survivors := filter (outlives env (containers w) listed) (docker_containers w) in
  let kept := if DockerService.prune_containers_ok env
              then filter d_running survivors else survivors in
  mkWorld
    (filter (not_purged now) (containers w))
    (exercise_progress w) (docker_images w) (system_logs w) (docker_available w)
    kept
    (if DockerService.prune_containers_ok env && DockerService.prune_networks_ok env
     then filter (fun n => existsb (String.eqb n) ["bridge"; "host"; "none"]
                           || existsb (fun d => (d_network d =? n)%string) kept)
                 (docker_networks w)
     else docker_networks w)
    (containerActivity w).

(** A labelled runtime container carries the id, and no record does. *)
Definition orphaned (w : World) (id : string) : Prop :=
  (exists o, In o (docker_containers w)
             /\ DockerService.has_label "training.user" o = true /\ d_id o = id)
  /\ forall c, In c (containers w) -> container_id c <> id.

(** A stopped record from long ago whose runtime container still runs. *)
Definition world_stale : World :=
  mkWorld [mkContainer "c1" 1 7 uuid_a stopped "32768" 1000]
          [mkProgress 7 1 in_progress 1 None]
          [image_1] [] true
          [runtime_of "c1" uuid_a "7" "1"] ["bridge"; "training_network"] [].

(** [world_stale] with one more labelled container, c9, that no record
    names. *)
Definition world_orphan : World :=
  mkWorld (containers world_stale) (exercise_progress world_stale)
          (docker_images world_stale) [] true
          [runtime_of "c1" uuid_a "7" "1"; runtime_of "c9" uuid_c "9" "1"]
          (docker_networks world_stale) [].

(** Users 1 (the administrator) and 7, over [world_in_progress]. *)
Definition site_in_progress : Admin.Site :=
  Admin.mkSite world_in_progress
    [Admin.mkUser 1 "adminRyan" "$argon2id$admin" Admin.admin 0;
     Admin.mkUser 7 "trainee-seven" "$argon2id$seven" Admin.user 500].

(** ** [src/services/logger.js]: the table [active_sessions] *)
Module Sessions.

(** A row of [active_sessions] without its surrogate id. The two timestamps
    are kept as the text that sqlite stores for [CURRENT_TIMESTAMP]; [ip]
    and [user_agent] are NULL when the request carries none. *)
Record SessionRow : Type := mkSession {
  session_id : string;
  s_user_id : Z;
  ip_address : option string;
  user_agent : option string;
  s_created_at : string;
  s_last_activity : string
}.

Definition is_session (sessionId : string) (r : SessionRow) : bool :=
  (session_id r =? sessionId)%string.

(** [trackSession]: inside one transaction, DELETE the rows of the session
    id, then INSERT the new row; [now] is the text of [CURRENT_TIMESTAMP]. *)
Definition trackSession (now sessionId : string) (userId : Z) (ip ua : option string)
    (table : list SessionRow) : list SessionRow :=
  (filter (fun r => negb (is_session sessionId r)) table
   ++ [mkSession sessionId userId ip ua now now])%list.

(** [removeSession] *)
Definition removeSession (sessionId : string) (table : list SessionRow) : list SessionRow :=
  filter (fun r => negb (is_session sessionId r)) table.

(** [cleanupExpiredSessions]: [DELETE ... WHERE last_activity < ?] with the
    parameter [expiryTime.toISOString()]. Both operands are text, which
    sqlite compares byte by byte. *)
Definition cleanupExpiredSessions (expiry : string) (table : list SessionRow)
  : list SessionRow :=
  filter (fun r => negb (String.ltb (s_last_activity r) expiry)) table.

End Sessions.

(** ** [examples/basic-js-analysis]: the client transform and the server *)
Module JsAnalysis.

(** The strings of this exercise are lists of UTF-16 code units. *)
Definition units : Type := list N.

Definition units_of (s : string) : units := map N_of_ascii (list_ascii_of_string s).

(** [String.fromCharCode(n)]: ToUint16. *)
Definition fromCharCode (n : Z) : N := Z.to_N (n mod 65536).

Definition is_alnum (n : N) : bool :=
  Js.in_range 48 57 n || Js.in_range 65 90 n || Js.in_range 97 122 n.

(** [/^[a-zA-Z0-9]+$/.test(input)] *)
Definition isValidInput (input : units) : bool :=
  match input with
  | [] => false
  | _ :: _ => forallb is_alnum input
  end.

Definition alphabet : units :=
  units_of "ABCDEFGHIJKLMNOPQRSTUVWXYZabcdefghijklmnopqrstuvwxyz0123456789+/".

Definition digit (i : N) : N := nth (N.to_nat i) alphabet 0%N.

(** Base64 of a list of bytes, with padding. *)
Fixpoint base64 (bytes : list N) : units :=
  match bytes with
  | [] => []
  | [a] =>
      let n := (a * 65536)%N in
      [digit (n / 262144); digit ((n / 4096) mod 64); 61; 61]%N
  | [a; b] =>
      let n := (a * 65536 + b * 256)%N in
      [digit (n / 262144); digit ((n / 4096) mod 64); digit ((n / 64) mod 64); 61]%N
  | a :: b :: c :: rest =>
      let n := (a * 65536 + b * 256 + c)%N in
      [digit (n / 262144); digit ((n / 4096) mod 64); digit ((n / 64) mod 64);
       digit (n mod 64)]%N ++ base64 rest
  end%list.

(** [btoa]: an InvalidCharacterError ([None]) when a code unit is above
    U+00FF, else the base64 of the code units as bytes. *)
Definition btoa (s : units) : option units :=
  if forallb (fun n => (n <=? 255)%N) s then Some (base64 s) else None.

(** [transformInput] of [public/script.js] *)
Definition transformInput (input : units) : option units :=
  let shifted := map (fun n => fromCharCode (Z.of_N n + 3)) input in
  let reversed := rev shifted in
  btoa reversed.

(** The text of the template literal before the interpolation; 34 is the
    double quote. *)
Definition html_open : units :=
  (units_of "<div class=" ++ [34%N] ++ units_of "message" ++ [34%N]
   ++ units_of ">Processed result: <span class=" ++ [34%N] ++ units_of "highlight"
   ++ [34%N] ++ units_of ">")%list.

Definition html_close : units := units_of "</span></div>".

Section Server.

(** [Buffer.from(transformedData, 'base64').toString('utf-8')], a built-in
    of the platform. *)
Variable decode_base64_utf8 : units -> units.

(** [processInput] of [server.js] *)
Definition processInput (transformedData : units) : units :=
  let decoded := decode_base64_utf8 transformedData in
  let reversed := rev decoded in
  let unshifted := map (fun n => fromCharCode (Z.of_N n - 3)) reversed in
  (html_open ++ unshifted ++ html_close)%list.

End Server.

(** A decoder of padded base64, as an instance of the built-in on the
    output of [btoa]. *)
Fixpoint index_of (c : N) (l : units) (i : N) : N :=
  match l with
  | [] => 0%N
  | d :: r => if (d =? c)%N then i else index_of c r (i + 1)%N
  end.

Definition value (c : N) : N := index_of c alphabet 0%N.

Fixpoint unbase64 (fuel : nat) (s : units) : list N :=
  match fuel, s with
  | S fuel, c1 :: c2 :: c3 :: c4 :: rest =>
      let n := (value c1 * 262144 + value c2 * 4096 + value c3 * 64 + value c4)%N in
      if (c3 =? 61)%N then [n / 65536]%N
      else if (c4 =? 61)%N then [n / 65536; (n / 256) mod 256]%N
      else ([n / 65536; (n / 256) mod 256; n mod 256]%N ++ unbase64 fuel rest)%list
  | _, _ => []
  end.

Definition decode_padded (s : units) : units := unbase64 (List.length s) s.

End JsAnalysis.

(* ===================================================================== *)
(** * Properties                                                           *)
(* ===================================================================== *)

(** ** Strings *)
Section StringFacts.

Import Js Spec.

Lemma render_runs_nonspace (c : ascii) (r : string) :
  is_space c = false ->
  render (runs (String c r)) = String c (render (runs r)).
Proof.
  intros Hc. cbn [runs]. rewrite Hc.
  destruct (runs r) as [|[[|] w] t]; reflexivity.
Qed.

Lemma render_runs_space (c : ascii) (r : string) :
  is_space c = true ->
  render (runs (String c r)) = String "-" (render (runs (skip_spaces r))).
Proof.
  intros Hc. induction r as [|d r IH].
  - cbn [runs render skip_spaces]. rewrite Hc. reflexivity.
  - cbn [skip_spaces]. destruct (is_space d) eqn:Hd.
    + rewrite <- IH. clear IH. cbn [runs].
      destruct (runs r) as [|[[|] w] t];
        repeat (rewrite ?Hd, ?Hc; cbn [Bool.eqb render]); reflexivity.
    + clear IH. cbn [runs].
      destruct (runs r) as [|[[|] w] t];
        repeat (rewrite ?Hd, ?Hc; cbn [Bool.eqb render]); reflexivity.
Qed.

(** The regular-expression replacement is the replacement of the maximal
    whitespace runs. *)
Lemma replace_spaces_runs (s : string) : replace_spaces s = render (runs s).
Proof.
  funelim (replace_spaces s).
  - reflexivity.
  - destruct (is_space c) eqn:Hc.
    + rewrite render_runs_space by assumption. f_equal. auto.
    + rewrite render_runs_nonspace by assumption. f_equal. auto.
Qed.

End StringFacts.

(** ** Bundle validation ([src/routes/exercises.js]) *)
Section BundleValidation.

Import Js Exercises.

Example toLowerCase_title : toLowerCase "SQL  Injection 101" = "sql  injection 101".
Proof. reflexivity. Qed.

Example replace_spaces_title : replace_spaces "sql  injection 101" = "sql-injection-101".
Proof. reflexivity. Qed.

Example level_spellings (t d v : value) :
  map (fun l => check_level (mkMetadata t d (JStr l) v))
      ["Beginner"; "BEGINNER"; "beginner"; "InterMediate"; "ADVANCED"]
  = [inr "beginner"; inr "beginner"; inr "beginner"; inr "intermediate"; inr "advanced"].
Proof. reflexivity. Qed.

Lemma includes_In (x : string) (l : list string) : includes x l = true <-> In x l.
Proof.
  unfold includes. rewrite existsb_exists. split.
  - intros (y & Hy & E). apply String.eqb_eq in E. now subst.
  - intros H. exists x. split; [assumption | apply String.eqb_refl].
Qed.

Lemma check_level_accepts (metadata : Metadata) :
  (exists levelValue, check_level metadata = inr levelValue) <->
  (exists s, level metadata = JStr s /\
             In (toLowerCase s) ["beginner"; "intermediate"; "advanced"]).
Proof.
  unfold check_level. split.
  - intros (lv & H).
    destruct (truthy (level metadata)); [|discriminate]. cbn [negb] in H.
    destruct (level metadata) as [| |b|n|s|o]; try discriminate.
    cbn [call_toLowerCase] in H.
    destruct (includes (toLowerCase s) validLevels) eqn:E; [|discriminate].
    exists s. split; [reflexivity|]. now apply includes_In in E.
  - intros (s & Hs & Hin). rewrite Hs. cbn [call_toLowerCase].
    apply includes_In in Hin. fold validLevels in Hin.
    assert (Ht : truthy (JStr s) = true).
    { destruct s; [vm_compute in Hin; discriminate | reflexivity]. }
    rewrite Ht, Hin. cbn [negb]. eauto.
Qed.

Lemma upload_ok_checked (u : Upload) (r : Response) :
  upload u = r -> code r <> 400 ->
  exists metadata levelValue, parsed u = ParsedValue metadata /\
                              check_level metadata = inr levelValue.
Proof.
  unfold upload, validate, validate_metadata. intros <- Hcode.
  destruct (file u); [|now elim Hcode]. cbn [negb] in Hcode.
  destruct (extract_error u); [now elim Hcode|].
  destruct (includes "Dockerfile" (files u)); [|now elim Hcode].
  destruct (includes "metadata.json" (files u)); [|now elim Hcode].
  cbn [negb] in Hcode.
  destruct (parsed u) as [e| |metadata]; try (now elim Hcode).
  destruct (truthy (title metadata)); [|now elim Hcode].
  destruct (truthy (description metadata)); [|now elim Hcode].
  cbn [negb] in Hcode.
  destruct (check_level metadata) as [e|lv] eqn:Hlv; [now elim Hcode|].
  exists metadata, lv. split; [reflexivity | exact Hlv].
Qed.

(** The answer to a bundle that passes every earlier check and whose level
    is a string outside the three legal values. *)
Lemma level_rejected_message (u : Upload) (metadata : Metadata) (s : string) :
  file u = true ->
  extract_error u = None ->
  includes "Dockerfile" (files u) = true ->
  includes "metadata.json" (files u) = true ->
  parsed u = ParsedValue metadata ->
  truthy (title metadata) = true ->
  truthy (description metadata) = true ->
  level metadata = JStr s ->
  s <> EmptyString ->
  ~ In (toLowerCase s) ["beginner"; "intermediate"; "advanced"] ->
  upload u = bad_request "Level must be one of: beginner, intermediate, advanced".
Proof.
  intros Hfile Hext Hdocker Hmeta Hparsed Htitle Hdesc Hlevel Hne Hnot.
  unfold upload, validate, validate_metadata, check_level.
  rewrite Hfile, Hext, Hdocker, Hmeta, Hparsed, Htitle, Hdesc, Hlevel.
  cbn [negb truthy call_toLowerCase].
  apply String.eqb_neq in Hne. rewrite Hne. cbn [negb].
  destruct (includes (toLowerCase s) validLevels) eqn:E; [|reflexivity].
  apply includes_In in E. now elim Hnot.
Qed.

(** C8. Bundle validation compares the metadata level case-insensitively:
    the level check passes exactly for the values that are strings whose
    lowercased form is beginner, intermediate or advanced, and an upload
    whose level is any other value is answered 400 with the message of the
    error as its body. *)
Theorem level_validation_case_insensitive (u : Upload) (metadata : Metadata) :
  parsed u = ParsedValue metadata ->
  ((exists levelValue, check_level metadata = inr levelValue) <->
   (exists s, level metadata = JStr s /\
              In (toLowerCase s) ["beginner"; "intermediate"; "advanced"]))
  /\ (~ (exists s, level metadata = JStr s /\
                   In (toLowerCase s) ["beginner"; "intermediate"; "advanced"]) ->
      exists reason, upload u = bad_request reason).
Proof.
  intros Hp. split; [apply check_level_accepts|].
  intros Hno.
  assert (Hcode : code (upload u) = 400).
  { destruct (Z.eq_dec (code (upload u)) 400) as [E|E]; [exact E|].
    destruct (upload_ok_checked u _ eq_refl E) as (m & lv & Hm & Hlv).
    rewrite Hp in Hm. injection Hm as <-.
    elim Hno. apply check_level_accepts. eauto. }
  revert Hcode. unfold upload.
  destruct (negb (file u)); [eauto|].
  destruct (validate u) as [e|[m [lv tag]]]; [eauto|].
  destruct (build_error u); [eauto|]. cbn. discriminate.
Qed.

Lemma level_validation_case_insensitive_witness :
  exists reason, upload (upload_of metadata_expert) = bad_request reason.
Proof.
  apply (level_validation_case_insensitive (upload_of metadata_expert) metadata_expert eq_refl).
  intros (s & Hs & Hin). injection Hs as <-.
  vm_compute in Hin. intuition discriminate.
Defined.

Lemma empty_version_tag :
  validate_metadata metadata_empty_version
  = inr ("beginner", "training/sql-injection-101:latest").
Proof. reflexivity. Qed.

(** C9, as stated, fails: a bundle whose version field is present but is the
    empty string is accepted and tagged ":latest", not ":" followed by the
    field. *)
Lemma image_tag_empty_version_counterexample : ~ tag_as_specified metadata_empty_version.
Proof.
  intros H.
  specialize (H _ _ _ empty_version_tag eq_refl).
  vm_compute in H. discriminate.
Qed.

(** C9, amended. For every accepted bundle the title is a string and the
    image tag is "training/" + slug(title) + ":" + version, where slug
    lowercases the title and replaces each maximal run of whitespace with
    one '-', and version is the metadata version field when it is truthy
    (present and not empty, null, 0 or false) and "latest" otherwise. *)
Theorem image_tag_derivation (u : Upload) (metadata : Metadata) (levelValue tag : string) :
  validate u = inr (metadata, (levelValue, tag)) ->
  exists t, title metadata = JStr t /\
    tag = "training/" ++ Spec.slug t ++ ":"
          ++ (if truthy (version metadata) then to_string (version metadata) else "latest").
Proof.
  unfold validate, validate_metadata, imageTag, version_or_latest.
  destruct (extract_error u); [discriminate|].
  destruct (negb (includes "Dockerfile" (files u))); [discriminate|].
  destruct (negb (includes "metadata.json" (files u))); [discriminate|].
  destruct (parsed u) as [e| |m]; try discriminate.
  destruct (negb (truthy (title m))); [discriminate|].
  destruct (negb (truthy (description m))); [discriminate|].
  destruct (check_level m) as [e|lv]; [discriminate|].
  destruct (title m) as [| |b|n|t|o] eqn:Ht; try discriminate.
  cbn [call_toLowerCase]. intros H. injection H as <- <- <-.
  exists t. rewrite Ht. split; [reflexivity|].
  unfold Spec.slug. rewrite replace_spaces_runs.
  destruct (truthy (version m)); reflexivity.
Qed.

Lemma image_tag_derivation_witness :
  exists t, title metadata_empty_version = JStr t /\
    "training/sql-injection-101:latest"
    = "training/" ++ Spec.slug t ++ ":"
      ++ (if truthy (version metadata_empty_version)
          then to_string (version metadata_empty_version) else "latest").
Proof.
  apply (image_tag_derivation (upload_of metadata_empty_version) metadata_empty_version
                              "beginner" "training/sql-injection-101:latest").
  reflexivity.
Defined.

End BundleValidation.

(** ** Tables *)
Section TableFacts.

Context {A : Type}.

Lemma find_none_all (p : A -> bool) (l : list A) :
  (forall x, In x l -> p x = false) -> find p l = None.
Proof.
  induction l as [|a l IH]; intros H; [reflexivity|].
  cbn [find]. rewrite (H a (or_introl eq_refl)).
  apply IH. intros x Hx. apply H. now right.
Qed.

(** An UPDATE that does not touch the columns of the WHERE clause of a
    later SELECT. *)
Lemma find_map_stable (p : A -> bool) (f : A -> A) (l : list A) :
  (forall x, p (f x) = p x) -> find p (map f l) = option_map f (find p l).
Proof.
  intros Hp. induction l as [|a l IH]; [reflexivity|].
  cbn [map find]. rewrite Hp. destruct (p a); [reflexivity | exact IH].
Qed.

Lemma filter_filter_negb (p : A -> bool) (l : list A) :
  filter p (filter (fun x => negb (p x)) l) = [].
Proof.
  induction l as [|a l IH]; [reflexivity|].
  cbn [filter]. destruct (p a) eqn:E; cbn [negb filter]; [exact IH|].
  rewrite E. exact IH.
Qed.

Lemma filter_idem (p : A -> bool) (l : list A) : filter p (filter p l) = filter p l.
Proof.
  induction l as [|a l IH]; [reflexivity|].
  cbn [filter]. destruct (p a) eqn:E; [|exact IH].
  cbn [filter]. rewrite E. now f_equal.
Qed.

End TableFacts.

(** ** The completion callback *)
Section Completion.

Import DockerService.

Lemma completion_found (now : Z) (s data : string) (info : ContainerRow) (w : World) :
  find (fun c => (subdomain c =? s)%string) (containers w) = Some info ->
  handleExerciseCompletion now s data w = (Ok true, after_completion now s data info w).
Proof.
  intros H. unfold handleExerciseCompletion. run_monad. rewrite H. reflexivity.
Qed.

Lemma completion_missing (now : Z) (s data : string) (w : World) :
  find (fun c => (subdomain c =? s)%string) (containers w) = None ->
  handleExerciseCompletion now s data w = (Throw "Container not found", w).
Proof.
  intros H. unfold handleExerciseCompletion. run_monad. rewrite H. reflexivity.
Qed.




(** C4, as stated, fails: the callback of a subdomain without a record is
    not answered 404. *)
Lemma complete_unknown_subdomain_counterexample :
  ~ unknown_subdomain_404 5000 uuid_b "{}" world_completed.
Proof.
  intros H. destruct H as [Hcode _].
  - intros c [<-|[]]. vm_compute. discriminate.
  - vm_compute in Hcode. discriminate.
Qed.

(** C4, amended. For every subdomain s such that no container record with
    subdomain s exists, POST /api/containers/{s}/complete is answered HTTP
    500 with body {error: "Internal server error"}, and nothing in the
    database, the runtime or the activity map is modified. *)
Theorem complete_unknown_subdomain (now : Z) (s data : string) (w : World) :
  (forall c, In c (containers w) -> subdomain c <> s) ->
  Containers.complete now s data w
  = (mkResponse 500 [("error", FStr "Internal server error")], w).
Proof.
  intros Hno. unfold Containers.complete, route. run_monad.
  rewrite completion_missing; [reflexivity|].
  apply find_none_all. intros c Hc. apply String.eqb_neq. now apply Hno.
Qed.

Lemma complete_unknown_subdomain_witness :
  Containers.complete 5000 uuid_b "{}" world_completed
  = (mkResponse 500 [("error", FStr "Internal server error")], world_completed).
Proof.
  apply (complete_unknown_subdomain 5000 uuid_b "{}" world_completed).
  intros c [<-|[]]. vm_compute. discriminate.
Defined.



End Completion.

(** ** The stop procedure and the reconciliation pass *)
Section StopAndCleanup.

Import DockerService.

Lemma stopContainer_containers (env : StopEnv) (containerId : string) (w : World) :
  docker_available w = true ->
  fst (stopContainer env containerId w) = Ok tt
  /\ containers (snd (stopContainer env containerId w))
     = map (mark_stopped containerId) (containers w).
Proof.
  intros Hav. unfold stopContainer, update_status_by_id, docker_stop, docker_remove.
  run_monad. rewrite Hav. cbn [negb].
  destruct (stop_ok env), (remove_ok env);
    destruct (find (fun c => (container_id c =? containerId)%string) (containers w));
    cbn;
    match goal with
    | |- context [find ?p ?l] => destruct (find p l) as [row|]
    end;
    try destruct (negb (subdomain row =? "")%string); cbn; split; reflexivity.
Qed.

Lemma stopContainer_unavailable (env : StopEnv) (containerId : string) (w : World) :
  docker_available w = false ->
  stopContainer env containerId w = (Throw "Docker service is not available", w).
Proof.
  intros Hav. unfold stopContainer. run_monad. rewrite Hav. reflexivity.
Qed.

Lemma status_of_mark_stopped (containerId : string) (s : Status) (l : list ContainerRow) :
  option_map status (find (fun c => (container_id c =? containerId)%string) l) = Some s ->
  option_map status
    (find (fun c => (container_id c =? containerId)%string) (map (mark_stopped containerId) l))
  = Some stopped.
Proof.
  intros H. rewrite find_map_stable.
  - destruct (find _ l) as [r|] eqn:E; [|discriminate].
    apply find_some in E. destruct E as [_ E].
    cbn [option_map]. unfold mark_stopped. rewrite E. reflexivity.
  - intros c. unfold mark_stopped.
    destruct (container_id c =? containerId)%string eqn:E; cbn; now rewrite E.
Qed.

Lemma stopContainer_status (env : StopEnv) (containerId : string) (s : Status) (w : World) :
  docker_available w = true ->
  status_of containerId w = Some s ->
  status_of containerId (snd (stopContainer env containerId w)) = Some stopped.
Proof.
  intros Hav Hs. unfold status_of in *.
  rewrite (proj2 (stopContainer_containers env containerId w Hav)).
  eapply status_of_mark_stopped; eassumption.
Qed.

(** C1, as stated, fails: stopping the container of a completed record
    turns the record's status into 'stopped'. *)
Lemma stop_completed_counterexample : ~ stop_keeps_completed stop_env_ok "c1" world_completed.
Proof.
  intros H. specialize (H eq_refl). vm_compute in H. discriminate.
Qed.

(** C1, amended. For every container record, whatever its status
    ('completed' included), invoking the stop procedure while the docker
    client is available sets the record's status to 'stopped', whether the
    procedure is reached by the owner's stop request, by the admin
    force-stop or by a watcher tick that found the idle or lifetime limit
    reached, and whatever the runtime calls did. *)
Theorem stop_sets_stopped (env : StopEnv) (containerId : string) (s : Status) (w : World) :
  docker_available w = true ->
  status_of containerId w = Some s ->
  status_of containerId (snd (stopContainer env containerId w)) = Some stopped
  /\ status_of containerId (snd (Containers.admin_stop env containerId w)) = Some stopped
  /\ (forall userId,
        find (fun c => (container_id c =? containerId)%string && (user_id c =? userId))
             (containers w) <> None ->
        status_of containerId (snd (Containers.stop env userId containerId w)) = Some stopped)
  /\ (forall lastActivity startTime now,
        (CONTAINER_IDLE_TIMEOUT <=? now - lastActivity)
        || (CONTAINER_MAX_LIFETIME <=? now - startTime) = true ->
        status_of containerId
          (snd (checkActivity env containerId lastActivity startTime now w)) = Some stopped).
Proof.
  intros Hav Hs.
  pose proof (stopContainer_status env containerId s w Hav Hs) as Hstop.
  destruct (stopContainer_containers env containerId w Hav) as [Hok _].
  repeat split.
  - exact Hstop.
  - unfold Containers.admin_stop, route. run_monad.
    destruct (stopContainer env containerId w) as [[[]|e] w']; [exact Hstop | discriminate].
  - intros userId Hown. unfold Containers.stop, route. run_monad.
    destruct (find _ (containers w)) as [c|]; [|now elim Hown].
    destruct (stopContainer env containerId w) as [[[]|e] w']; [exact Hstop | discriminate].
  - intros lastActivity startTime now Hdue. unfold checkActivity. rewrite Hdue. run_monad.
    destruct (stopContainer env containerId w) as [[[]|e] w']; [exact Hstop | discriminate].
Qed.

Lemma stop_sets_stopped_witness :
  status_of "c1" (snd (Containers.admin_stop stop_env_ok "c1" world_completed)) = Some stopped.
Proof.
  apply (stop_sets_stopped stop_env_ok "c1" completed world_completed); reflexivity.
Defined.

Lemma remove_orphans_containers (env : CleanupEnv) (dbContainers : list ContainerRow)
    (dockerContainers : list DockerContainer) (w : World) :
  fst (remove_orphans env dbContainers dockerContainers w) = Ok tt
  /\ containers (snd (remove_orphans env dbContainers dockerContainers w)) = containers w.
Proof.
  revert w. induction dockerContainers as [|d l IH]; intros w; [split; reflexivity|].
  cbn [remove_orphans]. unfold docker_remove. run_monad.
  destruct (find _ dbContainers); cbn.
  - apply IH.
  - destruct (orphan_remove_ok env (d_id d)); cbn.
    + exact (IH (set_docker_containers _ w)).
    + apply IH.
Qed.

(** Whatever the daemon answers, the pass leaves in the registry either
    every record (docker client unavailable, or the listing failed) or the
    records that are not 'stopped' and older than 24 hours. *)
Lemma cleanupResources_containers (env : CleanupEnv) (now : Z) (w : World) :
  containers (snd (cleanupResources env now w))
  = if docker_available w && list_ok env
    then filter (not_purged now) (containers w) else containers w.
Proof.
  unfold cleanupResources, docker_listContainers, pruneContainers, pruneNetworks.
  run_monad.
  destruct (docker_available w); [|reflexivity]. cbn [negb andb].
  destruct (list_ok env); [|reflexivity]. cbv beta iota.
  match goal with
  | |- context [remove_orphans env ?db ?l ?w0] =>
      destruct (remove_orphans_containers env db l w0) as [Hok Hc];
      destruct (remove_orphans env db l w0) as [[[]|e] w1]
  end; cbn in Hok, Hc |- *; [|discriminate].
  destruct (prune_containers_ok env); cbn; [|exact Hc].
  destruct (prune_networks_ok env); cbn; exact Hc.
Qed.




End StopAndCleanup.

(** ** Launch *)
Section Launch.

Import DockerService Containers.

Ltac unfold_create :=
  unfold createContainer, ensure_network, docker_createContainer, docker_start,
         docker_inspect_port, insert_container, monitorContainer,
         setupActivityMonitoring;
  run_monad.

Lemma createContainer_progress (env : LaunchEnv) (imageId userId : Z) (w : World) :
  exercise_progress (snd (createContainer env imageId userId w)) = exercise_progress w.
Proof.
  unfold_create.
  destruct (docker_available w) eqn:Hav; cbn [negb]; [|reflexivity].
  destruct (filter (String.eqb "training_network") (docker_networks w));
    cbn; rewrite ?Hav; cbn;
    (destruct (find (fun i => img_id i =? imageId) (docker_images w)); [|reflexivity]);
    (destruct (create_result env); [|reflexivity]); cbn;
    (destruct (start_ok env); [|reflexivity]); cbn;
    (destruct (inspect_port env); [|reflexivity]); cbn;
    match goal with
    | |- context [existsb ?p ?l] => destruct (existsb p l)
    end; cbn; rewrite ?Hav; reflexivity.
Qed.

Lemma createContainer_insert_rejected (env : LaunchEnv) (imageId userId : Z) (w : World)
    (id port : string) (image : ImageRow) :
  docker_available w = true ->
  find (fun i => img_id i =? imageId) (docker_images w) = Some image ->
  create_result env = Some id ->
  start_ok env = true ->
  inspect_port env = Some port ->
  insert_rejected env w id ->
  let result := createContainer env imageId userId w in
  fst result = Throw "SQLITE_CONSTRAINT: UNIQUE constraint failed"
  /\ containers (snd result) = containers w
  /\ exists d, In d (docker_containers (snd result)) /\ d_id d = id /\ d_running d = true.
Proof.
  intros Hav Himg Hcreate Hstart Hport Hrej. unfold insert_rejected in Hrej.
  cbv zeta. unfold_create. rewrite Hav. cbn [negb].
  destruct (filter (String.eqb "training_network") (docker_networks w));
    cbn; rewrite Himg, Hcreate; cbn; rewrite Hstart; cbn; rewrite Hport; cbn;
    rewrite Hrej; cbn; (split; [reflexivity|]); (split; [reflexivity|]);
    eexists; (split; [apply in_map, in_or_app; right; left; reflexivity|]);
    unfold mark_running; cbn [d_id]; rewrite String.eqb_refl; split; reflexivity.
Qed.

Lemma in_runtime_In (id : string) (w : World) (d : DockerContainer) :
  In d (docker_containers w) -> d_id d = id -> in_runtime id w = true.
Proof.
  intros Hin Hid. unfold in_runtime. apply existsb_exists.
  exists d. split; [exact Hin|]. rewrite Hid. apply String.eqb_refl.
Qed.

(** C3, as stated, fails: after a launch whose registry insert is rejected
    the container that the daemon created and started is still there. *)
Lemma launch_rollback_counterexample : ~ rollback_as_specified env_collision 7 1 world_collision.
Proof.
  intros H. specialize (H "c-new" "32768").
  assert (Hreach : reaches_insert env_collision 7 1 world_collision "c-new" "32768").
  { repeat split; try reflexivity. exists image_1. reflexivity. }
  specialize (H Hreach eq_refl). vm_compute in H. discriminate.
Qed.

(** C3, amended. For every launch in which the runtime create-and-start
    succeeds but the subsequent registry insert fails, the launch is
    answered 500 with body {error: "Internal server error"} and no registry
    row is inserted, while the newly created runtime container is left
    behind, still running: the launch performs no rollback. *)
Theorem launch_insert_failure (env : LaunchEnv) (userId imageId : Z) (w : World)
    (id port : string) :
  reaches_insert env userId imageId w id port ->
  insert_rejected env w id ->
  let result := launch env userId imageId w in
  fst result = mkResponse 500 [("error", FStr "Internal server error")]
  /\ containers (snd result) = containers w
  /\ (exists d, In d (docker_containers (snd result)) /\ d_id d = id /\ d_running d = true)
  /\ in_runtime id (snd result) = true.
Proof.
  intros (Hav & Hnone & Hcount & (image & Himg) & Hcreate & Hstart & Hport) Hrej.
  destruct (createContainer_insert_rejected env imageId userId w id port image
              Hav Himg Hcreate Hstart Hport Hrej) as (Hthrow & Hrows & d & Hin & Hid & Hrun).
  cbv zeta. unfold launch, route. run_monad. rewrite Hnone.
  apply Z.leb_gt in Hcount. rewrite Hcount.
  destruct (createContainer env imageId userId w) as [[info|e] w1];
    cbn [fst snd] in *; [discriminate|].
  repeat split; try assumption.
  - exists d. auto.
  - eapply in_runtime_In; eassumption.
Qed.

Lemma launch_insert_failure_witness :
  in_runtime "c-new" (snd (launch env_collision 7 1 world_collision)) = true.
Proof.
  apply (launch_insert_failure env_collision 7 1 world_collision "c-new" "32768").
  - repeat split; try reflexivity. exists image_1. reflexivity.
  - reflexivity.
Defined.

(** C5, as stated, fails: at the limit, the launch of an exercise the
    subject already runs is denied with the already-running error. *)
Lemma quota_counterexample : ~ quota_denied env_fresh 7 1 world_quota.
Proof.
  intros H.
  assert (Hlimit : 3 <= count_running 7 world_quota) by (vm_compute; discriminate).
  specialize (H Hlimit). vm_compute in H. discriminate.
Qed.

(** C5, amended. For every subject that already has at least 3 container
    records with status 'running', any launch request by that subject is
    denied with HTTP 400 and leaves state unchanged (no runtime container is
    created, no registry row is inserted): with the limit error
    (QuotaExceeded) when the subject has no running container of the
    requested exercise, and with the already-running error, which echoes the
    existing container, when it has one. *)
Theorem launch_at_limit (env : LaunchEnv) (userId imageId : Z) (w : World) :
  3 <= count_running userId w ->
  code (fst (launch env userId imageId w)) = 400
  /\ snd (launch env userId imageId w) = w
  /\ fst (launch env userId imageId w)
     = match find (is_running_for userId imageId) (containers w) with
       | Some existingContainer => already_running existingContainer
       | None => limit_reached
       end.
Proof.
  intros Hlimit. unfold launch, route. run_monad.
  destruct (find (is_running_for userId imageId) (containers w)).
  - repeat split; reflexivity.
  - apply Z.leb_le in Hlimit. rewrite Hlimit. repeat split; reflexivity.
Qed.

Lemma launch_at_limit_witness :
  code (fst (launch env_fresh 7 4 world_quota)) = 400
  /\ snd (launch env_fresh 7 4 world_quota) = world_quota
  /\ fst (launch env_fresh 7 4 world_quota) = limit_reached.
Proof.
  apply (launch_at_limit env_fresh 7 4 world_quota). vm_compute. discriminate.
Defined.

(** C10. On every successful launch for a (user, exercise) pair the
    exercise_progress row of the pair is wholly replaced: afterwards the
    table holds exactly one row for the pair, with attempts the previous
    attempts plus one (1 if there was no row), status 'in_progress' and
    completed_at NULL, so an earlier completion timestamp is lost; the rows
    of other pairs are untouched. *)
Theorem launch_replaces_progress (env : LaunchEnv) (userId imageId : Z) (w : World) :
  code (fst (launch env userId imageId w)) = 200 ->
  let table := exercise_progress (snd (launch env userId imageId w)) in
  filter (is_progress_of userId imageId) table
  = [mkProgress userId imageId in_progress
       match find (is_progress_of userId imageId) (exercise_progress w) with
       | Some previous => attempts previous + 1
       | None => 1
       end
       None]
  /\ filter (fun p => negb (is_progress_of userId imageId p)) table
     = filter (fun p => negb (is_progress_of userId imageId p)) (exercise_progress w).
Proof.
  cbv zeta. unfold launch, route. run_monad.
  destruct (find (is_running_for userId imageId) (containers w)); [discriminate|].
  destruct (3 <=? count_running userId w); [discriminate|].
  pose proof (createContainer_progress env imageId userId w) as Hprog.
  destruct (createContainer env imageId userId w) as [[info|e] w1];
    cbn [fst snd] in *; [|discriminate].
  intros _. cbn [set_progress exercise_progress]. rewrite Hprog. unfold replace_progress.
  rewrite !filter_app. split.
  - rewrite filter_filter_negb. cbn [filter app].
    unfold is_progress_of at 1. cbn [p_user_id p_image_id].
    rewrite !Z.eqb_refl. reflexivity.
  - rewrite (filter_idem (fun p => negb (is_progress_of userId imageId p))).
    cbn [filter]. unfold is_progress_of at 2. cbn [p_user_id p_image_id].
    rewrite !Z.eqb_refl. cbn [andb negb]. apply app_nil_r.
Qed.

Lemma launch_replaces_progress_witness :
  filter (is_progress_of 7 1) (exercise_progress (snd (launch env_fresh 7 1 world_completed)))
  = [mkProgress 7 1 in_progress 2 None].
Proof.
  apply (launch_replaces_progress env_fresh 7 1 world_completed). reflexivity.
Defined.

End Launch.

(** ** The subdomain router *)
Section Router.

Import Subdomain.

Lemma extractSubdomain_labels (hostname : string) :
  extractSubdomain hostname
  = if (3 <=? List.length (Js.split "." hostname))%nat
    then Some (hd EmptyString (Js.split "." hostname))
    else None.
Proof.
  unfold extractSubdomain. cbv zeta.
  destruct (List.length (Js.split "." hostname)) as [|[|[|n]]]; reflexivity.
Qed.

Lemma getContainerInfo_none (s : string) (w : World) :
  (forall c, In c (containers w) -> subdomain c = s -> status c <> running) ->
  getContainerInfo s w = None.
Proof.
  intros H. apply find_none_all. intros c Hc.
  destruct (subdomain c =? s)%string eqn:E; [|reflexivity].
  apply String.eqb_eq in E. specialize (H c Hc E).
  destruct (status c); [congruence | reflexivity | reflexivity].
Qed.

(** Whatever the validator, a hostname of fewer than three labels and a
    leftmost label that the validator refuses go to the main application. *)
Lemma subdomainHandler_pass (validateUUID : string -> bool) (w : World) (hostname : string) :
  (List.length (Js.split "." hostname) < 3)%nat
  \/ validateUUID (hd EmptyString (Js.split "." hostname)) = false ->
  subdomainHandler validateUUID w hostname = Next.
Proof.
  intros H. unfold subdomainHandler. rewrite extractSubdomain_labels.
  destruct (3 <=? List.length (Js.split "." hostname))%nat eqn:E; [|reflexivity].
  destruct H as [H|H].
  - apply Nat.leb_le in E. lia.
  - rewrite H. cbn [negb]. now rewrite orb_true_r.
Qed.

(** Whatever the validator, a leftmost label that is not empty, that the
    validator accepts and that no running record carries is answered 404. *)
Lemma subdomainHandler_not_running (validateUUID : string -> bool) (w : World)
    (hostname : string) :
  (3 <= List.length (Js.split "." hostname))%nat ->
  hd EmptyString (Js.split "." hostname) <> EmptyString ->
  validateUUID (hd EmptyString (Js.split "." hostname)) = true ->
  getContainerInfo (hd EmptyString (Js.split "." hostname)) w = None ->
  subdomainHandler validateUUID w hostname
  = Send (not_running (hd EmptyString (Js.split "." hostname))).
Proof.
  intros Hlen Hne Hvalid Hnone. unfold subdomainHandler.
  rewrite extractSubdomain_labels.
  apply Nat.leb_le in Hlen. rewrite Hlen, Hvalid, Hnone.
  apply String.eqb_neq in Hne. rewrite Hne. reflexivity.
Qed.

Lemma uuid_v4_char_accepted (i : nat) (c : ascii) :
  Spec.uuid_v4_char i c = true -> uuid_char i c = true.
Proof.
  unfold Spec.uuid_v4_char, uuid_char.
  destruct (existsb (Nat.eqb i) [8; 13; 18; 23]%nat); [tauto|].
  destruct (i =? 14)%nat; [|tauto].
  intros H. cbn [existsb]. rewrite H. now rewrite !orb_true_r.
Qed.

Lemma uuid_v4_from_accepted (s : string) (i : nat) :
  Spec.uuid_v4_from i s = true -> uuid_from i s = true.
Proof.
  revert i. induction s as [|c r IH]; intros i; [reflexivity|].
  cbn [Spec.uuid_v4_from uuid_from]. rewrite !andb_true_iff. intros [Hc Hr].
  split; [now apply uuid_v4_char_accepted | now apply IH].
Qed.

(** Every valid UUIDv4 is accepted by [validate]. *)
Lemma uuid_v4_validate (s : string) : Spec.uuid_v4 s = true -> validate s = true.
Proof.
  unfold Spec.uuid_v4, validate. rewrite andb_true_iff. intros [Hlen Hfrom].
  rewrite Hlen, (uuid_v4_from_accepted s 0 Hfrom). reflexivity.
Qed.

(** C6, as stated, fails: a leftmost label that is a version-1 UUID is not
    a valid UUIDv4, yet the request is not passed to the main application:
    [validate] accepts the label, and with no running record of that
    subdomain the handler answers 404. *)
Lemma subdomain_routing_counterexample :
  ~ routing_as_specified world_completed (uuid_v1 ++ ".apptraining.dbg.local").
Proof.
  intros [_ H]. specialize (H (or_intror eq_refl)). vm_compute in H. discriminate.
Qed.

(** C6, amended. A request whose hostname has at least 3 dot-separated
    labels and whose leftmost label is accepted by [validate] of the
    package uuid (a UUID of any of the versions 1 to 5 or the nil UUID;
    every valid UUIDv4 is accepted) and for which no registry record has
    status 'running' is answered 404 with body {error: "Container not found
    or not running", subdomain}; a request whose hostname has fewer than 3
    labels, or whose leftmost label [validate] refuses, is passed to the
    main application. *)
Theorem subdomain_routing (w : World) (hostname : string) :
  let labels := Js.split "." hostname in
  let label := hd EmptyString labels in
  ((3 <= List.length labels)%nat ->
   validate label = true ->
   (forall c, In c (containers w) -> subdomain c = label -> status c <> running) ->
   subdomainHandler validate w hostname
   = Send (mkResponse 404 [("error", FStr "Container not found or not running");
                           ("subdomain", FStr label)]))
  /\ (Spec.uuid_v4 label = true -> validate label = true)
  /\ ((List.length labels < 3)%nat \/ validate label = false ->
      subdomainHandler validate w hostname = Next).
Proof.
  cbv zeta. split; [|split; [apply uuid_v4_validate | apply subdomainHandler_pass]].
  intros Hlen Hvalid Hnone.
  rewrite subdomainHandler_not_running; try assumption.
  - reflexivity.
  - intros Hempty. rewrite Hempty in Hvalid. vm_compute in Hvalid. discriminate.
  - now apply getContainerInfo_none.
Qed.

Lemma subdomain_routing_witness :
  subdomainHandler validate world_completed (uuid_b ++ ".apptraining.dbg.local")
  = Send (mkResponse 404 [("error", FStr "Container not found or not running");
                          ("subdomain", FStr uuid_b)])
  /\ subdomainHandler validate world_completed (uuid_v1 ++ ".apptraining.dbg.local")
     = Send (mkResponse 404 [("error", FStr "Container not found or not running");
                             ("subdomain", FStr uuid_v1)])
  /\ subdomainHandler validate world_completed "www.apptraining.dbg.local" = Next
  /\ subdomainHandler validate world_completed "dbg.local" = Next.
Proof.
  split; [|split; [|split]].
  - apply (proj1 (subdomain_routing world_completed (uuid_b ++ ".apptraining.dbg.local"))).
    + vm_compute. lia.
    + reflexivity.
    + intros c [<-|[]]. vm_compute. discriminate.
  - apply (proj1 (subdomain_routing world_completed (uuid_v1 ++ ".apptraining.dbg.local"))).
    + vm_compute. lia.
    + reflexivity.
    + intros c [<-|[]]. vm_compute. discriminate.
  - apply (proj2 (proj2 (subdomain_routing world_completed "www.apptraining.dbg.local"))).
    right. reflexivity.
  - apply (proj2 (proj2 (subdomain_routing world_completed "dbg.local"))).
    left. vm_compute. lia.
Defined.

Example running_subdomain_is_proxied :
  subdomainHandler validate world_in_progress (uuid_a ++ ".apptraining.dbg.local")
  = Proxy "http://localhost:32768".
Proof. reflexivity. Qed.

End Router.

(* ===================================================================== *)
(** * Further properties of the orchestrator                               *)
(* ===================================================================== *)

(** ** Keys and counts of the registry *)
Section RegistryFacts.

Context {A K : Type}.

Lemma find_none_filter (p : A -> bool) (l : list A) : find p l = None -> filter p l = [].
Proof.
  induction l as [|a l IH]; [reflexivity|]. cbn [find filter].
  destruct (p a); [discriminate | exact IH].
Qed.

Lemma filter_map_length_le (p : A -> bool) (f : A -> A) (l : list A) :
  (forall x, p (f x) = true -> p x = true) ->
  (List.length (filter p (map f l)) <= List.length (filter p l))%nat.
Proof.
  intros H. induction l as [|a l IH]; [apply le_n|]. cbn [map filter].
  destruct (p (f a)) eqn:E.
  - rewrite (H a E). cbn [List.length]. lia.
  - destruct (p a); cbn [List.length]; lia.
Qed.

Lemma filter_filter_length_le (p q : A -> bool) (l : list A) :
  (List.length (filter p (filter q l)) <= List.length (filter p l))%nat.
Proof.
  induction l as [|a l IH]; [apply le_n|]. cbn [filter].
  destruct (q a), (p a) eqn:E; cbn [filter List.length]; rewrite ?E; cbn [List.length]; lia.
Qed.

Lemma NoDup_map_filter (k : A -> K) (q : A -> bool) (l : list A) :
  NoDup (map k l) -> NoDup (map k (filter q l)).
Proof.
  induction l as [|a l IH]; intros H; [constructor|].
  cbn [map] in H. inversion H as [|x xs Hnot Hrest]; subst.
  cbn [filter]. destruct (q a); [|now apply IH].
  cbn [map]. constructor; [|now apply IH].
  intros Hin. apply Hnot. apply in_map_iff in Hin. destruct Hin as (b & Hb & Hin).
  apply filter_In in Hin. apply in_map_iff. exists b. tauto.
Qed.

(** A unique key identifies its row. *)
Lemma NoDup_map_inj (k : A -> K) (l : list A) (a b : A) :
  NoDup (map k l) -> In a l -> In b l -> k a = k b -> a = b.
Proof.
  induction l as [|c l IH]; intros H Ha Hb E; [contradiction|].
  cbn [map] in H. inversion H as [|x xs Hnot Hrest]; subst.
  destruct Ha as [<-|Ha], Hb as [<-|Hb].
  - reflexivity.
  - elim Hnot. rewrite E. now apply in_map.
  - elim Hnot. rewrite <- E. now apply in_map.
  - now apply IH.
Qed.

Lemma existsb_false_In (p : A -> bool) (l : list A) (x : A) :
  existsb p l = false -> In x l -> p x = false.
Proof.
  intros H Hx. apply not_true_is_false. intros E.
  assert (Hex : existsb p l = true) by (apply existsb_exists; eauto).
  congruence.
Qed.

Lemma map_fixes (f : A -> A) (l : list A) : (forall c, In c l -> f c = c) -> map f l = l.
Proof.
  intros H. induction l as [|a l IH]; [reflexivity|]. cbn [map].
  rewrite (H a (or_introl eq_refl)), IH; [reflexivity|].
  intros c Hc. apply H. now right.
Qed.

(** Demoting the one row of a key takes exactly one row out of a count. *)
Lemma demote_one (k : A -> K) (p : A -> bool) (f : A -> A) (l : list A) (r : A) :
  NoDup (map k l) -> In r l -> p r = true ->
  (forall c, k c = k r -> p (f c) = false) ->
  (forall c, k c <> k r -> f c = c) ->
  S (List.length (filter p (map f l))) = List.length (filter p l).
Proof.
  intros Hnd Hin Hp Hkey Hother. induction l as [|a l IH]; [contradiction|].
  cbn [map] in Hnd. inversion Hnd as [|x xs Hnot Hrest]; subst.
  cbn [map filter]. destruct Hin as [->|Hin].
  - rewrite Hp, (Hkey r eq_refl). cbn [List.length]. do 3 f_equal.
    apply map_fixes. intros c Hc. apply Hother. intros E. apply Hnot.
    rewrite <- E. now apply in_map.
  - assert (Hne : k a <> k r).
    { intros E. apply Hnot. rewrite E. now apply in_map. }
    rewrite (Hother a Hne). destruct (p a); cbn [List.length]; rewrite <- (IH Hrest Hin);
      reflexivity.
Qed.

End RegistryFacts.

(** ** More on the stop procedure *)
Section StopFurther.

Import DockerService Subdomain.

Lemma mark_stopped_keeps_id (containerId : string) (c : ContainerRow) :
  ((container_id (mark_stopped containerId c) =? containerId)%string
   = (container_id c =? containerId)%string).
Proof.
  unfold mark_stopped. destruct (container_id c =? containerId)%string eqn:E; cbn; now rewrite ?E.
Qed.

Lemma stopContainer_run (env : StopEnv) (containerId : string) (w : World) :
  docker_available w = true ->
  stopContainer env containerId w = (Ok tt, after_stop env containerId w).
Proof.
  intros Hav. unfold stopContainer, update_status_by_id, docker_stop, docker_remove.
  run_monad. rewrite Hav. cbn [negb]. unfold after_stop. cbv zeta.
  destruct (stop_ok env), (remove_ok env);
    destruct (find (fun c => (container_id c =? containerId)%string) (containers w))
      as [info|] eqn:Hfind;
    cbn [set_docker_containers set_logs set_containers set_activity containers
         exercise_progress docker_images system_logs docker_available docker_containers
         docker_networks containerActivity];
    change (fun c : ContainerRow =>
              if (container_id c =? containerId)%string then with_status stopped c else c)
      with (mark_stopped containerId);
    rewrite (find_map_stable _ (mark_stopped containerId) _
               (mark_stopped_keeps_id containerId)), Hfind;
    cbn [option_map];
    try (replace (subdomain (mark_stopped containerId info)) with (subdomain info)
          by (unfold mark_stopped; destruct (container_id info =? containerId)%string;
              reflexivity);
         destruct (negb (subdomain info =? "")%string));
    cbn; rewrite ?app_nil_r; reflexivity.
Qed.

Lemma stop_route_owner (env : StopEnv) (containerId : string) (r : ContainerRow) (w : World) :
  docker_available w = true ->
  In r (containers w) ->
  container_id r = containerId ->
  Containers.stop env (user_id r) containerId w
  = (mkResponse 200 [("message", FStr "Container stopped successfully")],
     after_stop env containerId w).
Proof.
  intros Hav Hin Hid. unfold Containers.stop, route. run_monad.
  destruct (find (fun c => (container_id c =? containerId)%string && (user_id c =? user_id r))
                 (containers w)) eqn:Hfind.
  - rewrite (stopContainer_run env containerId w Hav). reflexivity.
  - apply find_none with (x := r) in Hfind; [|exact Hin].
    rewrite Hid, String.eqb_refl, Z.eqb_refl in Hfind. discriminate.
Qed.

Lemma no_running_after_mark_stopped (containerId : string) (r : ContainerRow)
    (rows : list ContainerRow) :
  NoDup (map subdomain rows) -> In r rows -> container_id r = containerId ->
  find (fun c => (subdomain c =? subdomain r)%string && Status_eqb (status c) running)
       (map (mark_stopped containerId) rows) = None.
Proof.
  intros Hnd Hin Hid. apply find_none_all. intros x Hx.
  apply in_map_iff in Hx. destruct Hx as (c & <- & Hc).
  assert (Hsub : subdomain (mark_stopped containerId c) = subdomain c).
  { unfold mark_stopped. destruct (container_id c =? containerId)%string; reflexivity. }
  rewrite Hsub. destruct (subdomain c =? subdomain r)%string eqn:E; [|reflexivity].
  apply String.eqb_eq in E.
  assert (c = r) by (eapply NoDup_map_inj; eassumption). subst c.
  unfold mark_stopped. rewrite Hid, String.eqb_refl. reflexivity.
Qed.

(** X1. Once the owner's stop request has been served, the subdomain of the
    stopped container has no running record, so no request to that
    subdomain is proxied any more. *)
Theorem stop_makes_unreachable (env : StopEnv) (validateUUID : string -> bool)
    (r : ContainerRow) (w : World) (hostname : string) :
  docker_available w = true ->
  NoDup (map subdomain (containers w)) ->
  In r (containers w) ->
  extractSubdomain hostname = Some (subdomain r) ->
  let served := Containers.stop env (user_id r) (container_id r) w in
  code (fst served) = 200
  /\ getContainerInfo (subdomain r) (snd served) = None
  /\ forall target, subdomainHandler validateUUID (snd served) hostname <> Proxy target.
Proof.
  intros Hav Hnd Hin Hhost. cbv zeta.
  rewrite (stop_route_owner env (container_id r) r w Hav Hin eq_refl). cbn [fst snd code].
  assert (Hnone : getContainerInfo (subdomain r) (after_stop env (container_id r) w) = None).
  { unfold getContainerInfo, after_stop. cbn [containers].
    now apply no_running_after_mark_stopped. }
  repeat split; [exact Hnone|].
  intros target. unfold subdomainHandler. rewrite Hhost.
  destruct ((subdomain r =? "")%string || negb (validateUUID (subdomain r)));
    [discriminate|].
  rewrite Hnone. discriminate.
Qed.

Lemma stop_makes_unreachable_witness :
  getContainerInfo uuid_a
    (snd (Containers.stop stop_env_ok 7 "c1" world_in_progress)) = None.
Proof.
  apply (stop_makes_unreachable stop_env_ok Subdomain.validate
           (mkContainer "c1" 1 7 uuid_a running "32768" 1000) world_in_progress
           (uuid_a ++ ".apptraining.dbg.local")).
  - reflexivity.
  - vm_compute. repeat constructor. intros [].
  - left. reflexivity.
  - reflexivity.
Defined.

(** X2. When the forced removal succeeds, the stop procedure leaves no
    runtime container under the id, and it drops the activity entry of the
    record's subdomain. *)
Theorem stop_removes_runtime_and_activity (env : StopEnv) (containerId : string)
    (r : ContainerRow) (w : World) :
  docker_available w = true ->
  find (fun c => (container_id c =? containerId)%string) (containers w) = Some r ->
  subdomain r <> EmptyString ->
  let w' := snd (stopContainer env containerId w) in
  ~ In (subdomain r) (containerActivity w')
  /\ (remove_ok env = true -> in_runtime containerId w' = false).
Proof.
  intros Hav Hfind Hne. cbv zeta.
  rewrite (stopContainer_run env containerId w Hav). cbn [snd]. split.
  - unfold after_stop. rewrite Hfind. cbn [containerActivity].
    apply String.eqb_neq in Hne. rewrite Hne. cbn [negb].
    intros Hin. apply filter_In in Hin. destruct Hin as [_ E].
    rewrite String.eqb_refl in E. discriminate.
  - intros Hrm. unfold in_runtime, after_stop. cbn [docker_containers]. rewrite Hrm.
    apply not_true_is_false. intros E. apply existsb_exists in E.
    destruct E as (d & Hd & E). apply filter_In in Hd. destruct Hd as [_ Hd].
    rewrite E in Hd. discriminate.
Qed.

Lemma stop_removes_runtime_and_activity_witness :
  ~ In uuid_a (containerActivity (snd (stopContainer stop_env_ok "c1" world_in_progress)))
  /\ (remove_ok stop_env_ok = true ->
      in_runtime "c1" (snd (stopContainer stop_env_ok "c1" world_in_progress)) = false).
Proof.
  apply (stop_removes_runtime_and_activity stop_env_ok "c1"
           (mkContainer "c1" 1 7 uuid_a running "32768" 1000) world_in_progress).
  - reflexivity.
  - reflexivity.
  - discriminate.
Defined.

(** X3. The admin force-stop of a container id that has no record is
    answered 200 all the same; the registry, the progress table, the
    journal and the activity map are left as they were. *)
Theorem admin_stop_unknown_container (env : StopEnv) (containerId : string) (w : World) :
  docker_available w = true ->
  (forall c, In c (containers w) -> container_id c <> containerId) ->
  let served := Containers.admin_stop env containerId w in
  fst served = mkResponse 200 [("message", FStr "Container stopped successfully")]
  /\ containers (snd served) = containers w
  /\ exercise_progress (snd served) = exercise_progress w
  /\ system_logs (snd served) = system_logs w
  /\ containerActivity (snd served) = containerActivity w.
Proof.
  intros Hav Hno. cbv zeta. unfold Containers.admin_stop, route. run_monad.
  rewrite (stopContainer_run env containerId w Hav). cbn [fst snd].
  assert (Hfind : find (fun c => (container_id c =? containerId)%string) (containers w) = None).
  { apply find_none_all. intros c Hc. apply String.eqb_neq. now apply Hno. }
  unfold after_stop. rewrite Hfind.
  cbn [containers exercise_progress system_logs containerActivity].
  rewrite app_nil_r. repeat split.
  apply map_fixes. intros c Hc. unfold mark_stopped.
  destruct (container_id c =? containerId)%string eqn:E; [|reflexivity].
  apply String.eqb_eq in E. now elim (Hno c Hc).
Qed.

Lemma admin_stop_unknown_container_witness :
  fst (Containers.admin_stop stop_env_ok "no-such-id" world_in_progress)
  = mkResponse 200 [("message", FStr "Container stopped successfully")].
Proof.
  apply (admin_stop_unknown_container stop_env_ok "no-such-id" world_in_progress).
  - reflexivity.
  - intros c [<-|[]]. discriminate.
Defined.

(** X5. A stop request for a container that is not the requester's own is
    answered 404 and changes nothing, whether or not the container
    exists. *)
Theorem stop_foreign_container (env : StopEnv) (userId : Z) (containerId : string)
    (w : World) :
  (forall c, In c (containers w) -> container_id c = containerId -> user_id c <> userId) ->
  Containers.stop env userId containerId w
  = (mkResponse 404 [("error", FStr "Container not found")], w).
Proof.
  intros Hforeign. unfold Containers.stop, route. run_monad.
  rewrite find_none_all; [reflexivity|].
  intros c Hc. destruct (container_id c =? containerId)%string eqn:E; [|reflexivity].
  apply String.eqb_eq in E. cbn [andb]. apply Z.eqb_neq. now apply Hforeign.
Qed.

Lemma stop_foreign_container_witness :
  Containers.stop stop_env_ok 8 "c1" world_in_progress
  = (mkResponse 404 [("error", FStr "Container not found")], world_in_progress).
Proof.
  apply (stop_foreign_container stop_env_ok 8 "c1" world_in_progress).
  intros c [<-|[]] _. discriminate.
Defined.

End StopFurther.

(** ** The docker client missing, and the watcher *)
Section Availability.

Import DockerService.

Lemma createContainer_unavailable (env : LaunchEnv) (imageId userId : Z) (w : World) :
  docker_available w = false ->
  createContainer env imageId userId w = (Throw "Docker service is not available", w).
Proof.
  intros Hav. unfold createContainer. run_monad. rewrite Hav. reflexivity.
Qed.

(** X4. While the docker client is missing ([docker === null]) no request of
    the orchestrator changes anything: the force-stop is answered 500, stop
    and launch requests never succeed, the reconciliation pass returns at
    once, and a watcher tick that is due swallows the error and does not
    re-arm its timer. *)
Theorem docker_unavailable (w : World) (senv : StopEnv) (lenv : LaunchEnv)
    (cenv : CleanupEnv) (userId imageId : Z) (containerId : string)
    (lastActivity startTime now : Z) :
  docker_available w = false ->
  Containers.admin_stop senv containerId w = (internal_error, w)
  /\ snd (Containers.stop senv userId containerId w) = w
  /\ code (fst (Containers.stop senv userId containerId w)) <> 200
  /\ snd (Containers.launch lenv userId imageId w) = w
  /\ code (fst (Containers.launch lenv userId imageId w)) <> 200
  /\ cleanupResources cenv now w = (Ok tt, w)
  /\ ((CONTAINER_IDLE_TIMEOUT <=? now - lastActivity)
      || (CONTAINER_MAX_LIFETIME <=? now - startTime) = true ->
      checkActivity senv containerId lastActivity startTime now w = (Ok false, w)).
Proof.
  intros Hav.
  pose proof (stopContainer_unavailable senv containerId w Hav) as Hstop.
  pose proof (createContainer_unavailable lenv imageId userId w Hav) as Hcreate.
  repeat split.
  - unfold Containers.admin_stop, route. run_monad. rewrite Hstop. reflexivity.
  - unfold Containers.stop, route. run_monad.
    destruct (find _ (containers w)); [rewrite Hstop|]; reflexivity.
  - unfold Containers.stop, route. run_monad.
    destruct (find _ (containers w)); [rewrite Hstop|]; discriminate.
  - unfold Containers.launch, route. run_monad.
    destruct (find _ (containers w)); [reflexivity|].
    destruct (3 <=? Containers.count_running userId w); [reflexivity|].
    rewrite Hcreate. reflexivity.
  - unfold Containers.launch, route. run_monad.
    destruct (find _ (containers w)); [discriminate|].
    destruct (3 <=? Containers.count_running userId w); [discriminate|].
    rewrite Hcreate. discriminate.
  - unfold cleanupResources. run_monad. rewrite Hav. reflexivity.
  - intros Hdue. unfold checkActivity. rewrite Hdue. run_monad. rewrite Hstop. reflexivity.
Qed.

Lemma docker_unavailable_witness :
  Containers.admin_stop stop_env_ok "c1" world_no_docker = (internal_error, world_no_docker).
Proof.
  apply (docker_unavailable world_no_docker stop_env_ok env_fresh cleanup_env_ok
           7 1 "c1" 0 0 0). reflexivity.
Defined.

(** X6. A watcher tick re-arms its timer and changes nothing exactly while
    the container has been idle for less than 900000 ms and alive for less
    than 7200000 ms; from either bound on it runs the stop procedure once
    and ends, whatever the stop procedure did. *)
Theorem watcher_tick_bounds (env : StopEnv) (containerId : string)
    (lastActivity startTime now : Z) (w : World) :
  (now - lastActivity < 900000 /\ now - startTime < 7200000 ->
   checkActivity env containerId lastActivity startTime now w = (Ok true, w))
  /\ (900000 <= now - lastActivity \/ 7200000 <= now - startTime ->
      checkActivity env containerId lastActivity startTime now w
      = (Ok false, snd (stopContainer env containerId w))).
Proof.
  unfold checkActivity, CONTAINER_IDLE_TIMEOUT, CONTAINER_MAX_LIFETIME.
  change (15 * 60 * 1000) with 900000. change (2 * 60 * 60 * 1000) with 7200000.
  split.
  - intros [Hidle Hlife].
    apply Z.leb_gt in Hidle. apply Z.leb_gt in Hlife. rewrite Hidle, Hlife. reflexivity.
  - intros Hdue.
    assert (E : (900000 <=? now - lastActivity) || (7200000 <=? now - startTime) = true).
    { apply orb_true_iff. destruct Hdue as [H|H]; [left|right]; now apply Z.leb_le. }
    rewrite E. run_monad.
    destruct (stopContainer env containerId w) as [[[]|e] w']; reflexivity.
Qed.

Lemma watcher_tick_bounds_witness :
  checkActivity stop_env_ok "c1" 100000 0 999999 world_in_progress = (Ok true, world_in_progress)
  /\ checkActivity stop_env_ok "c1" 100000 0 1000000 world_in_progress
     = (Ok false, snd (stopContainer stop_env_ok "c1" world_in_progress)).
Proof.
  split.
  - apply (proj1 (watcher_tick_bounds stop_env_ok "c1" 100000 0 999999 world_in_progress)). lia.
  - apply (proj2 (watcher_tick_bounds stop_env_ok "c1" 100000 0 1000000 world_in_progress)). lia.
Defined.

End Availability.

(** ** More on the completion callback *)
Section CompletionFurther.

Import DockerService Subdomain.

Lemma completion_of_record (now : Z) (data : string) (r : ContainerRow) (w : World) :
  In r (containers w) ->
  exists info,
    find (fun c => (subdomain c =? subdomain r)%string) (containers w) = Some info
    /\ subdomain info = subdomain r
    /\ Containers.complete now (subdomain r) data w
       = (mkResponse 200 [("success", FBool true)],
          after_completion now (subdomain r) data info w).
Proof.
  intros Hin.
  destruct (find (fun c => (subdomain c =? subdomain r)%string) (containers w))
    as [info|] eqn:Hfind.
  - exists info. split; [reflexivity|]. split.
    + apply find_some in Hfind. now apply String.eqb_eq.
    + unfold Containers.complete, route. run_monad.
      rewrite (completion_found now _ data info w Hfind). reflexivity.
  - apply find_none with (x := r) in Hfind; [|exact Hin].
    rewrite String.eqb_refl in Hfind. discriminate.
Qed.

(** X7. The completion callback marks the record 'completed' whatever its
    status was ('stopped' included) and asks nothing of the docker daemon:
    the runtime containers and the activity map are as before, while no
    request to the subdomain is proxied any more. *)
Theorem completion_leaves_runtime (now : Z) (data : string) (validateUUID : string -> bool)
    (r : ContainerRow) (w : World) (hostname : string) :
  In r (containers w) ->
  extractSubdomain hostname = Some (subdomain r) ->
  let served := Containers.complete now (subdomain r) data w in
  fst served = mkResponse 200 [("success", FBool true)]
  /\ In (with_status completed r) (containers (snd served))
  /\ docker_containers (snd served) = docker_containers w
  /\ containerActivity (snd served) = containerActivity w
  /\ forall target, subdomainHandler validateUUID (snd served) hostname <> Proxy target.
Proof.
  intros Hin Hhost. cbv zeta.
  destruct (completion_of_record now data r w Hin) as (info & Hfind & Hsub & ->).
  cbn [fst snd after_completion containers docker_containers containerActivity].
  repeat split.
  - apply in_map_iff. exists r. rewrite String.eqb_refl. auto.
  - intros target. unfold subdomainHandler. rewrite Hhost.
    destruct ((subdomain r =? "")%string || negb (validateUUID (subdomain r)));
      [discriminate|].
    unfold getContainerInfo. cbn [after_completion containers].
    rewrite find_none_all; [discriminate|].
    intros x Hx. apply in_map_iff in Hx. destruct Hx as (c & <- & Hc).
    destruct (subdomain c =? subdomain r)%string eqn:E; cbn; rewrite E; reflexivity.
Qed.

Lemma completion_leaves_runtime_witness :
  In (with_status completed (mkContainer "c1" 1 7 uuid_a running "32768" 1000))
     (containers (snd (Containers.complete 5000 uuid_a "{}" world_in_progress)))
  /\ docker_containers (snd (Containers.complete 5000 uuid_a "{}" world_in_progress))
     = docker_containers world_in_progress.
Proof.
  pose proof (completion_leaves_runtime 5000 "{}" Subdomain.validate
                (mkContainer "c1" 1 7 uuid_a running "32768" 1000) world_in_progress
                (uuid_a ++ ".apptraining.dbg.local")
                (or_introl eq_refl) eq_refl) as H.
  cbv zeta in H. tauto.
Defined.

(** X8. The completion callback only updates: it creates no progress row
    (a pair without a row stays without one), keeps every row's attempts,
    leaves the rows of other (user, exercise) pairs as they are, and stamps
    every row of the record's pair 'completed' with the time of the call. *)
Theorem completion_progress_frame (now : Z) (s data : string) (info : ContainerRow)
    (w : World) :
  find (fun c => (subdomain c =? s)%string) (containers w) = Some info ->
  let before := exercise_progress w in
  let after := exercise_progress (snd (handleExerciseCompletion now s data w)) in
  let mine := Containers.is_progress_of (user_id info) (image_id info) in
  List.length after = List.length before
  /\ map attempts after = map attempts before
  /\ filter (fun p => negb (mine p)) after = filter (fun p => negb (mine p)) before
  /\ (forall p, In p after -> mine p = true ->
        p_status p = progress_completed /\ completed_at p = Some now)
  /\ (find mine before = None -> after = before).
Proof.
  intros Hfind. cbv zeta. rewrite (completion_found now s data info w Hfind).
  cbn [snd after_completion exercise_progress].
  set (u := user_id info). set (i := image_id info).
  assert (Hsame : forall p, Containers.is_progress_of u i (complete_progress now u i p)
                            = Containers.is_progress_of u i p).
  { intros p. unfold complete_progress, Containers.is_progress_of.
    destruct ((p_user_id p =? u) && (p_image_id p =? i)) eqn:E; cbn; now rewrite E. }
  repeat split.
  - apply length_map.
  - rewrite map_map. apply map_ext. intros p. unfold complete_progress.
    destruct ((p_user_id p =? u) && (p_image_id p =? i)); reflexivity.
  - induction (exercise_progress w) as [|p l IH]; [reflexivity|].
    cbn [map filter]. rewrite Hsame, IH.
    destruct (Containers.is_progress_of u i p) eqn:E; cbn [negb]; [reflexivity|].
    f_equal. unfold complete_progress. unfold Containers.is_progress_of in E.
    now rewrite E.
  - apply in_map_iff in H. destruct H as (q & <- & _).
    rewrite Hsame in H0. unfold complete_progress.
    unfold Containers.is_progress_of in H0. now rewrite H0.
  - apply in_map_iff in H. destruct H as (q & <- & _).
    rewrite Hsame in H0. unfold complete_progress.
    unfold Containers.is_progress_of in H0. now rewrite H0.
  - intros Hnone. apply map_fixes. intros p Hp.
    apply find_none with (x := p) in Hnone; [|exact Hp].
    unfold complete_progress. unfold Containers.is_progress_of in Hnone. now rewrite Hnone.
Qed.

Lemma completion_progress_frame_witness :
  map attempts (exercise_progress
                  (snd (handleExerciseCompletion 5000 uuid_a "{}" world_in_progress)))
  = map attempts (exercise_progress world_in_progress).
Proof.
  apply (completion_progress_frame 5000 uuid_a "{}"
           (mkContainer "c1" 1 7 uuid_a running "32768" 1000) world_in_progress).
  reflexivity.
Defined.

End CompletionFurther.

(** ** More on launch *)
Section LaunchFurther.

Import DockerService Containers Subdomain.

Lemma createContainer_success (env : LaunchEnv) (imageId userId : Z) (w : World)
    (image : ImageRow) (id port : string) :
  docker_available w = true ->
  find (fun i => img_id i =? imageId) (docker_images w) = Some image ->
  create_result env = Some id ->
  start_ok env = true ->
  inspect_port env = Some port ->
  existsb (fun c => (container_id c =? id)%string || (subdomain c =? uuid env)%string)
          (containers w) = false ->
  createContainer env imageId userId w
  = (Ok (id, uuid env ++ ".apptraining.dbg.local"),
     after_create env imageId userId image id port w).
Proof.
  intros Hav Himg Hcreate Hstart Hport Hfree.
  destruct w as [rows progress images logs available runtime networks activity].
  cbn [docker_available docker_images containers] in Hav, Himg, Hfree. subst available.
  unfold createContainer, ensure_network, docker_createContainer, docker_start,
         docker_inspect_port, insert_container, monitorContainer, setupActivityMonitoring,
         after_create, launched_row.
  run_monad. cbv zeta.
  destruct (filter (String.eqb "training_network") networks) eqn:Hnet;
    cbv beta iota delta
      [set_docker_networks set_docker_containers set_containers set_activity set_logs
       docker_available docker_networks docker_images containers containerActivity
       docker_containers exercise_progress system_logs negb];
    rewrite ?Hnet, Himg, Hcreate; cbv beta iota; rewrite Hstart; cbv beta iota;
    rewrite Hport; cbv beta iota; cbn [container_id subdomain]; rewrite Hfree;
    cbv beta iota;
    destruct (existsb (String.eqb (uuid env)) activity); reflexivity.
Qed.

Lemma createContainer_no_image (env : LaunchEnv) (imageId userId : Z) (w : World) :
  docker_available w = true ->
  find (fun i => img_id i =? imageId) (docker_images w) = None ->
  createContainer env imageId userId w
  = (Throw "Image not found",
     set_docker_networks
       (fun l => match filter (String.eqb "training_network") l with
                 | [] => (l ++ ["training_network"])%list
                 | _ :: _ => l
                 end) w).
Proof.
  intros Hav Himg. unfold createContainer, ensure_network. run_monad.
  rewrite Hav. cbn [negb]. unfold set_docker_networks at 2.
  destruct (filter (String.eqb "training_network") (docker_networks w)) eqn:E;
    cbn; rewrite Himg; cbn; [reflexivity|].
  destruct w; reflexivity.
Qed.

Lemma createContainer_containers (env : LaunchEnv) (imageId userId : Z) (w : World) :
  containers (snd (createContainer env imageId userId w)) = containers w
  \/ (exists id port,
        existsb (fun c => (container_id c =? id)%string || (subdomain c =? uuid env)%string)
                (containers w) = false
        /\ containers (snd (createContainer env imageId userId w))
           = (containers w ++ [launched_row env userId imageId id port])%list).
Proof.
  destruct (docker_available w) eqn:Hav;
    [|rewrite createContainer_unavailable by assumption; now left].
  destruct (find (fun i => img_id i =? imageId) (docker_images w)) as [image|] eqn:Himg;
    [|rewrite createContainer_no_image by assumption; now left].
  destruct (create_result env) as [id|] eqn:Hcreate.
  - destruct (start_ok env) eqn:Hstart.
    + destruct (inspect_port env) as [port|] eqn:Hport.
      * destruct (existsb (fun c => (container_id c =? id)%string
                                    || (subdomain c =? uuid env)%string) (containers w))
          eqn:Hfree.
        -- left. apply (createContainer_insert_rejected env imageId userId w id port image);
             assumption.
        -- right. exists id, port. split; [exact Hfree|].
           rewrite (createContainer_success env imageId userId w image id port);
             try assumption. reflexivity.
      * left. unfold createContainer, ensure_network, docker_createContainer, docker_start,
                docker_inspect_port. run_monad. rewrite Hav. cbn [negb].
        destruct (filter (String.eqb "training_network") (docker_networks w));
          cbn; rewrite Himg, Hcreate; cbn; rewrite Hstart; cbn; rewrite Hport; reflexivity.
    + left. unfold createContainer, ensure_network, docker_createContainer, docker_start.
      run_monad. rewrite Hav. cbn [negb].
      destruct (filter (String.eqb "training_network") (docker_networks w));
        cbn; rewrite Himg, Hcreate; cbn; rewrite Hstart; reflexivity.
  - left. unfold createContainer, ensure_network, docker_createContainer.
    run_monad. rewrite Hav. cbn [negb].
    destruct (filter (String.eqb "training_network") (docker_networks w));
      cbn; rewrite Himg, Hcreate; reflexivity.
Qed.

Lemma split_before_dot (a b : string) :
  has_char "." a = false ->
  Js.split "." (a ++ String "." b) = a :: Js.split "." b.
Proof.
  induction a as [|c a IH]; intros H; [reflexivity|].
  cbn [has_char] in H. apply orb_false_iff in H. destruct H as [Hc Ha].
  cbn [append Js.split]. rewrite Hc, (IH Ha). reflexivity.
Qed.

Lemma find_app_last {A : Type} (p : A -> bool) (l : list A) (a : A) :
  find p l = None -> p a = true -> find p (l ++ [a]) = Some a.
Proof.
  intros Hnone Ha. induction l as [|b l IH]; cbn [app find].
  - now rewrite Ha.
  - cbn [find] in Hnone. destruct (p b); [discriminate|]. now apply IH.
Qed.

(** X9. A launch that passes the policy checks and whose runtime and
    registry steps all succeed is answered 200 with the container id and the
    subdomain under the base domain; it appends one running record, leaves a
    running runtime container under that id, and from then on a request to
    that subdomain is proxied to the host port that the daemon reported. *)
Theorem launch_makes_reachable (env : LaunchEnv) (userId imageId : Z) (w : World)
    (id port : string) (validateUUID : string -> bool) :
  reaches_insert env userId imageId w id port ->
  ~ insert_rejected env w id ->
  validateUUID (uuid env) = true ->
  uuid env <> EmptyString ->
  has_char "." (uuid env) = false ->
  let served := launch env userId imageId w in
  fst served = mkResponse 200 [("containerId", FStr id);
                               ("subdomain", FStr (uuid env ++ ".apptraining.dbg.local"))]
  /\ containers (snd served)
     = (containers w ++ [mkContainer id imageId userId (uuid env) running port
                                    (launch_now env)])%list
  /\ in_runtime id (snd served) = true
  /\ subdomainHandler validateUUID (snd served) (uuid env ++ ".apptraining.dbg.local")
     = Proxy ("http://localhost:" ++ port).
Proof.
  intros (Hav & Hnone & Hcount & (image & Himg) & Hcreate & Hstart & Hport) Hfree
         Hvalid Hne Hdot.
  unfold insert_rejected in Hfree. apply not_true_is_false in Hfree.
  cbv zeta. unfold launch, route. run_monad. rewrite Hnone.
  apply Z.leb_gt in Hcount. rewrite Hcount.
  rewrite (createContainer_success env imageId userId w image id port
             Hav Himg Hcreate Hstart Hport Hfree).
  cbn [fst snd]. unfold set_progress, after_create, launched_row. cbv zeta.
  cbn [containers docker_containers].
  repeat split.
  - unfold in_runtime. cbn [docker_containers]. apply existsb_exists.
    eexists. split; [apply in_map, in_or_app; right; left; reflexivity|].
    unfold mark_running. cbn [d_id]. rewrite String.eqb_refl. cbn [d_id].
    apply String.eqb_refl.
  - unfold subdomainHandler, extractSubdomain. cbv zeta.
    rewrite (split_before_dot (uuid env) "apptraining.dbg.local" Hdot).
    replace (2 <? List.length (uuid env :: Js.split "." "apptraining.dbg.local"))%nat
      with true by (vm_compute; reflexivity).
    cbn [hd]. rewrite Hvalid.
    apply String.eqb_neq in Hne. rewrite Hne. cbn [orb negb].
    unfold getContainerInfo. cbn [containers].
    rewrite (find_app_last _ _ (mkContainer id imageId userId (uuid env) running port
                                            (launch_now env))).
    + reflexivity.
    + apply find_none_all. intros c Hc.
      pose proof (existsb_false_In _ _ c Hfree Hc) as Hc'.
      apply orb_false_iff in Hc'. destruct Hc' as [_ E]. now rewrite E.
    + cbn. now rewrite String.eqb_refl.
Qed.

Lemma launch_makes_reachable_witness :
  subdomainHandler Subdomain.validate (snd (launch env_fresh 7 1 world_completed))
    (uuid env_fresh ++ ".apptraining.dbg.local")
  = Proxy "http://localhost:32771".
Proof.
  apply (launch_makes_reachable env_fresh 7 1 world_completed "c-new" "32771"
           Subdomain.validate).
  - repeat split; try reflexivity. exists image_1. reflexivity.
  - unfold insert_rejected. vm_compute. discriminate.
  - reflexivity.
  - discriminate.
  - reflexivity.
Defined.

(** X10. A launch of an exercise id that the catalog does not hold is
    answered 500, not 404; no runtime container is created and the registry,
    the progress table and the journal stay as they were (the training
    network may have been created on the way). *)
Theorem launch_unknown_exercise (env : LaunchEnv) (userId imageId : Z) (w : World) :
  docker_available w = true ->
  find (is_running_for userId imageId) (containers w) = None ->
  count_running userId w < 3 ->
  (forall image, In image (docker_images w) -> img_id image <> imageId) ->
  let served := launch env userId imageId w in
  fst served = mkResponse 500 [("error", FStr "Internal server error")]
  /\ containers (snd served) = containers w
  /\ docker_containers (snd served) = docker_containers w
  /\ exercise_progress (snd served) = exercise_progress w
  /\ system_logs (snd served) = system_logs w.
Proof.
  intros Hav Hnone Hcount Himg. cbv zeta. unfold launch, route. run_monad.
  rewrite Hnone. apply Z.leb_gt in Hcount. rewrite Hcount.
  rewrite createContainer_no_image; [repeat split | exact Hav |].
  apply find_none_all. intros image Hin. apply Z.eqb_neq. now apply Himg.
Qed.

Lemma launch_unknown_exercise_witness :
  fst (launch env_fresh 7 99 world_completed)
  = mkResponse 500 [("error", FStr "Internal server error")].
Proof.
  apply (launch_unknown_exercise env_fresh 7 99 world_completed).
  - reflexivity.
  - reflexivity.
  - reflexivity.
  - intros image [<-|[]]. discriminate.
Defined.

End LaunchFurther.

(** ** The launch policy as an invariant of the registry *)
Section Policy.

Import DockerService Containers.

Lemma Status_eqb_running (s : Status) : Status_eqb s running = true <-> s = running.
Proof. destruct s; cbn; split; congruence. Qed.

Lemma count_running_nat (userId : Z) (w : World) :
  count_running userId w = Z.of_nat (count_running_of userId (containers w)).
Proof. reflexivity. Qed.

Lemma NoDup_snoc {A : Type} (l : list A) (a : A) : NoDup l -> ~ In a l -> NoDup (l ++ [a]).
Proof.
  induction l as [|b l IH]; intros Hnd Hnot; cbn [app].
  - constructor; [intros []|constructor].
  - inversion Hnd as [|x xs Hb Hrest]; subst. constructor.
    + intros Hin. apply in_app_or in Hin. destruct Hin as [Hin|[->|[]]].
      * now apply Hb.
      * apply Hnot. now left.
    + apply IH; [assumption|]. intros Hin. apply Hnot. now right.
Qed.

Lemma filter_snoc_length {A : Type} (p : A -> bool) (l : list A) (a : A) :
  List.length (filter p (l ++ [a]))
  = (List.length (filter p l) + if p a then 1 else 0)%nat.
Proof.
  rewrite filter_app, length_app. cbn [filter]. destruct (p a); reflexivity.
Qed.

Lemma mark_stopped_demotes (containerId : string) : demotes (mark_stopped containerId).
Proof.
  intros c. unfold mark_stopped.
  destruct (container_id c =? containerId)%string; cbn; repeat split; auto; discriminate.
Qed.

Lemma mark_completed_demotes (s : string) : demotes (mark_completed s).
Proof.
  intros c. unfold mark_completed.
  destruct (subdomain c =? s)%string; cbn; repeat split; auto; discriminate.
Qed.

Lemma registry_ok_map (f : ContainerRow -> ContainerRow) (rows : list ContainerRow) :
  demotes f -> registry_ok rows -> registry_ok (map f rows).
Proof.
  intros Hf (Hid & Hsub & Hquota & Hone). repeat split.
  - rewrite map_map. rewrite (map_ext _ container_id); [exact Hid|]. intros c. apply Hf.
  - rewrite map_map. rewrite (map_ext _ subdomain); [exact Hsub|]. intros c. apply Hf.
  - intros u. unfold count_running_of.
    etransitivity; [apply filter_map_length_le | apply Hquota].
    intros c. unfold is_running_of. destruct (Hf c) as (_ & _ & -> & _ & Hrun).
    intros E. apply andb_true_iff in E. destruct E as [-> E].
    apply Status_eqb_running in E. rewrite (Hrun E). reflexivity.
  - intros u i. unfold count_running_for.
    etransitivity; [apply filter_map_length_le | apply Hone].
    intros c. unfold is_running_for. destruct (Hf c) as (_ & _ & -> & -> & Hrun).
    intros E. apply andb_true_iff in E. destruct E as [-> E].
    apply Status_eqb_running in E. rewrite (Hrun E). reflexivity.
Qed.

Lemma registry_ok_filter (q : ContainerRow -> bool) (rows : list ContainerRow) :
  registry_ok rows -> registry_ok (filter q rows).
Proof.
  intros (Hid & Hsub & Hquota & Hone). repeat split.
  - now apply NoDup_map_filter.
  - now apply NoDup_map_filter.
  - intros u. unfold count_running_of.
    etransitivity; [apply filter_filter_length_le | apply Hquota].
  - intros u i. unfold count_running_for.
    etransitivity; [apply filter_filter_length_le | apply Hone].
Qed.

Lemma registry_ok_insert (env : LaunchEnv) (userId imageId : Z) (id port : string)
    (rows : list ContainerRow) :
  registry_ok rows ->
  existsb (fun c => (container_id c =? id)%string || (subdomain c =? uuid env)%string) rows
  = false ->
  find (is_running_for userId imageId) rows = None ->
  (count_running_of userId rows < 3)%nat ->
  registry_ok (rows ++ [launched_row env userId imageId id port]).
Proof.
  intros (Hid & Hsub & Hquota & Hone) Hfree Hnone Hcount.
  assert (Hkeys : forall c, In c rows -> container_id c <> id /\ subdomain c <> uuid env).
  { intros c Hc. pose proof (existsb_false_In _ _ c Hfree Hc) as Hc'.
    apply orb_false_iff in Hc'. destruct Hc' as [E1 E2].
    split; now apply String.eqb_neq. }
  repeat split.
  - rewrite map_app. unfold launched_row. cbn [map container_id].
    apply NoDup_snoc; [exact Hid|].
    intros Hin. apply in_map_iff in Hin. destruct Hin as (c & E & Hc).
    now apply (proj1 (Hkeys c Hc)).
  - rewrite map_app. unfold launched_row. cbn [map subdomain].
    apply NoDup_snoc; [exact Hsub|].
    intros Hin. apply in_map_iff in Hin. destruct Hin as (c & E & Hc).
    now apply (proj2 (Hkeys c Hc)).
  - intros u. unfold count_running_of. rewrite filter_snoc_length.
    unfold is_running_of at 2, launched_row. cbn [user_id status Status_eqb].
    rewrite andb_true_r. destruct (userId =? u) eqn:E.
    + apply Z.eqb_eq in E. subst u. unfold count_running_of in Hcount. lia.
    + specialize (Hquota u). unfold count_running_of in Hquota. lia.
  - intros u i. unfold count_running_for. rewrite filter_snoc_length.
    unfold is_running_for at 2, launched_row. cbn [user_id image_id status Status_eqb].
    rewrite andb_true_r. destruct ((userId =? u) && (imageId =? i)) eqn:E.
    + apply andb_true_iff in E. destruct E as [Eu Ei].
      apply Z.eqb_eq in Eu. apply Z.eqb_eq in Ei. subst u i.
      rewrite (find_none_filter _ _ Hnone). cbn. lia.
    + specialize (Hone u i). unfold count_running_for in Hone. lia.
Qed.

Lemma stopContainer_rows (env : StopEnv) (containerId : string) (w : World) :
  containers (snd (stopContainer env containerId w))
  = if docker_available w then map (mark_stopped containerId) (containers w)
    else containers w.
Proof.
  destruct (docker_available w) eqn:Hav.
  - apply stopContainer_containers. exact Hav.
  - rewrite stopContainer_unavailable by exact Hav. reflexivity.
Qed.

Lemma registry_ok_stopContainer (env : StopEnv) (containerId : string) (w : World) :
  registry_ok (containers w) ->
  registry_ok (containers (snd (stopContainer env containerId w))).
Proof.
  intros H. rewrite stopContainer_rows. destruct (docker_available w); [|exact H].
  apply registry_ok_map; [apply mark_stopped_demotes | exact H].
Qed.

Lemma launch_rows (env : LaunchEnv) (userId imageId : Z) (w : World) :
  containers (snd (launch env userId imageId w)) = containers w
  \/ (find (is_running_for userId imageId) (containers w) = None
      /\ count_running userId w < 3
      /\ exists id port,
           existsb (fun c => (container_id c =? id)%string
                             || (subdomain c =? uuid env)%string) (containers w) = false
           /\ containers (snd (launch env userId imageId w))
              = (containers w ++ [launched_row env userId imageId id port])%list).
Proof.
  unfold launch, route. run_monad.
  destruct (find (is_running_for userId imageId) (containers w)) eqn:Hnone; [now left|].
  destruct (3 <=? count_running userId w) eqn:Hcount; [now left|].
  apply Z.leb_gt in Hcount.
  destruct (createContainer_containers env imageId userId w) as [H|(id & port & Hfree & H)].
  - left. destruct (createContainer env imageId userId w) as [[info|e] w1]; exact H.
  - right. repeat split; try assumption. exists id, port. split; [exact Hfree|].
    destruct (createContainer env imageId userId w) as [[info|e] w1]; exact H.
Qed.

Lemma registry_ok_serve (r : Request) (w : World) :
  registry_ok (containers w) -> registry_ok (containers (serve r w)).
Proof.
  intros H. destruct r as [env u i|env u cid|env cid|now s data|env cid la st now|env now|id];
    cbn [serve].
  - destruct (launch_rows env u i w) as [->|(Hnone & Hcount & id & port & Hfree & ->)];
      [exact H|].
    apply registry_ok_insert; try assumption.
    rewrite count_running_nat in Hcount. lia.
  - unfold Containers.stop, route. run_monad.
    destruct (find _ (containers w)); [|exact H].
    pose proof (registry_ok_stopContainer env cid w H) as Hs.
    destruct (stopContainer env cid w) as [[[]|e] w1]; exact Hs.
  - unfold Containers.admin_stop, route. run_monad.
    pose proof (registry_ok_stopContainer env cid w H) as Hs.
    destruct (stopContainer env cid w) as [[[]|e] w1]; exact Hs.
  - unfold Containers.complete, route. run_monad.
    destruct (find (fun c => (subdomain c =? s)%string) (containers w)) as [info|] eqn:Hfind.
    + rewrite (completion_found now s data info w Hfind).
      cbn [snd after_completion containers].
      apply (registry_ok_map (mark_completed s)); [apply mark_completed_demotes | exact H].
    + rewrite (completion_missing now s data w Hfind). exact H.
  - unfold checkActivity.
    destruct ((CONTAINER_IDLE_TIMEOUT <=? now - la) || (CONTAINER_MAX_LIFETIME <=? now - st));
      [|exact H].
    run_monad. pose proof (registry_ok_stopContainer env cid w H) as Hs.
    destruct (stopContainer env cid w) as [[[]|e] w1]; exact Hs.
  - rewrite cleanupResources_containers.
    destruct (docker_available w && DockerService.list_ok env); [|exact H].
    now apply registry_ok_filter.
  - unfold Catalog.delete, route. run_monad.
    destruct (find _ (docker_images w)); exact H.
Qed.

(** X11. The launch policy is an invariant of the registry: from a registry
    with unique container ids and subdomains, at most 3 running records per
    user and at most one running record per user and exercise, every
    sequence of launch, stop, force-stop, completion, watcher, reconciliation
    and exercise-deletion requests served one after the other leads to a
    registry with the same four properties. *)
Theorem registry_ok_preserved (requests : list Request) (w : World) :
  registry_ok (containers w) -> registry_ok (containers (serve_all requests w)).
Proof.
  revert w. unfold serve_all.
  induction requests as [|r requests IH]; intros w H; cbn [fold_left]; [exact H|].
  apply IH. now apply registry_ok_serve.
Qed.

Lemma registry_ok_preserved_witness :
  registry_ok
    (containers
       (serve_all [Launch env_fresh 7 1; Complete 5000 uuid_a "{}";
                   Launch env_collision 7 1; AdminStop stop_env_ok "c-new";
                   Reconcile cleanup_env_ok 100000]
                  world_completed)).
Proof.
  apply (registry_ok_preserved _ world_completed).
  cbn [world_completed containers]. repeat split.
  - repeat constructor. intros [].
  - repeat constructor. intros [].
  - intros u. unfold count_running_of, is_running_of. cbn [filter user_id status].
    destruct (7 =? u); cbn; lia.
  - intros u i. unfold count_running_for, is_running_for.
    cbn [filter user_id image_id status].
    destruct (7 =? u), (1 =? i); cbn; lia.
Defined.

(** X12. Stopping and completing each free exactly one slot of the owner's
    quota: the number of running records of the owner drops by one when a
    running record is stopped, and also when its completion callback is
    served, although the completion leaves the runtime container in
    place. *)
Theorem leaving_running_frees_slot (env : StopEnv) (now : Z) (data : string)
    (r : ContainerRow) (w : World) :
  docker_available w = true ->
  NoDup (map container_id (containers w)) ->
  NoDup (map subdomain (containers w)) ->
  In r (containers w) ->
  status r = running ->
  count_running (user_id r) (snd (stopContainer env (container_id r) w))
  = count_running (user_id r) w - 1
  /\ count_running (user_id r) (snd (handleExerciseCompletion now (subdomain r) data w))
     = count_running (user_id r) w - 1
  /\ docker_containers (snd (handleExerciseCompletion now (subdomain r) data w))
     = docker_containers w.
Proof.
  intros Hav Hid Hsub Hin Hrun.
  assert (Hp : is_running_of (user_id r) r = true).
  { unfold is_running_of. rewrite Z.eqb_refl, Hrun. reflexivity. }
  split; [|split].
  - unfold count_running. rewrite stopContainer_rows, Hav.
    rewrite <- (demote_one container_id (is_running_of (user_id r))
                  (mark_stopped (container_id r)) (containers w) r Hid Hin Hp).
    + lia.
    + intros c E. unfold mark_stopped, is_running_of.
      rewrite E, String.eqb_refl. cbn. apply andb_false_r.
    + intros c E. unfold mark_stopped. apply String.eqb_neq in E. now rewrite E.
  - destruct (find (fun c => (subdomain c =? subdomain r)%string) (containers w))
      as [info|] eqn:Hfind.
    + rewrite (completion_found now _ data info w Hfind).
      unfold count_running. cbn [snd after_completion containers].
      rewrite <- (demote_one subdomain (is_running_of (user_id r))
                    (mark_completed (subdomain r)) (containers w) r Hsub Hin Hp).
      * unfold mark_completed. lia.
      * intros c E. unfold mark_completed, is_running_of.
        rewrite E, String.eqb_refl. cbn. apply andb_false_r.
      * intros c E. unfold mark_completed. apply String.eqb_neq in E. now rewrite E.
    + apply find_none with (x := r) in Hfind; [|exact Hin].
      rewrite String.eqb_refl in Hfind. discriminate.
  - destruct (find (fun c => (subdomain c =? subdomain r)%string) (containers w))
      as [info|] eqn:Hfind.
    + rewrite (completion_found now _ data info w Hfind). reflexivity.
    + rewrite (completion_missing now _ data w Hfind). reflexivity.
Qed.

Lemma leaving_running_frees_slot_witness :
  count_running 7 (snd (stopContainer stop_env_ok "c1" world_quota))
  = count_running 7 world_quota - 1.
Proof.
  apply (leaving_running_frees_slot stop_env_ok 5000 "{}"
           (mkContainer "c1" 1 7 uuid_a running "32768" 1000) world_quota).
  - reflexivity.
  - vm_compute. repeat constructor; cbn; intuition discriminate.
  - vm_compute. repeat constructor; cbn; intuition discriminate.
  - left. reflexivity.
  - reflexivity.
Defined.

End Policy.

(** ** More on the reconciliation pass *)
Section CleanupFurther.

Import DockerService.

Lemma filter_filter_andb {A : Type} (p q : A -> bool) (l : list A) :
  filter q (filter p l) = filter (fun x => p x && q x) l.
Proof.
  induction l as [|a l IH]; [reflexivity|]. cbn [filter].
  destruct (p a); cbn [filter andb]; [destruct (q a)|]; now rewrite IH.
Qed.

Lemma filter_all {A : Type} (l : list A) : filter (fun _ => true) l = l.
Proof. induction l as [|a l IH]; [reflexivity|]. cbn [filter]. now f_equal. Qed.

Lemma remove_orphans_run (env : CleanupEnv) (dbContainers : list ContainerRow)
    (listed : list DockerContainer) (w : World) :
  remove_orphans env dbContainers listed w
  = (Ok tt, set_docker_containers (filter (outlives env dbContainers listed)) w).
Proof.
  revert w. induction listed as [|o listed IH]; intros w.
  - cbn [remove_orphans]. unfold ret, set_docker_containers, outlives. cbn [existsb negb].
    rewrite filter_all. destruct w; reflexivity.
  - cbn [remove_orphans]. unfold docker_remove. run_monad.
    destruct (find (fun c => (container_id c =? d_id o)%string) dbContainers) eqn:Hfind.
    + assert (Hun : unrecorded dbContainers (d_id o) = false)
        by (unfold unrecorded; now rewrite Hfind).
      rewrite IH. f_equal. unfold set_docker_containers. f_equal.
      apply filter_ext. intros d. unfold outlives. cbn [existsb]. rewrite Hun. reflexivity.
    + assert (Hun : unrecorded dbContainers (d_id o) = true)
        by (unfold unrecorded; now rewrite Hfind).
      destruct (orphan_remove_ok env (d_id o)) eqn:Hok; cbv beta iota.
      * rewrite IH. f_equal. unfold set_docker_containers.
        cbn [containers exercise_progress docker_images system_logs docker_available
             docker_containers docker_networks containerActivity].
        f_equal. rewrite filter_filter_andb. apply filter_ext. intros d. unfold outlives.
        cbn [existsb]. rewrite Hun, Hok. cbn [andb]. rewrite negb_orb. reflexivity.
      * rewrite IH. f_equal. unfold set_docker_containers. f_equal.
        apply filter_ext. intros d. unfold outlives. cbn [existsb]. rewrite Hun, Hok.
        reflexivity.
Qed.

Lemma cleanupResources_run (env : CleanupEnv) (now : Z) (w : World) :
  docker_available w = true ->
  list_ok env = true ->
  cleanupResources env now w = (Ok tt, after_cleanup env now w).
Proof.
  intros Hav Hlist.
  unfold cleanupResources, docker_listContainers, pruneContainers, pruneNetworks.
  run_monad. rewrite Hav, Hlist. cbn [negb]. cbv beta iota. rewrite remove_orphans_run.
  unfold after_cleanup. cbv zeta.
  destruct (prune_containers_ok env), (prune_networks_ok env); destruct w; reflexivity.
Qed.

Lemma cleanupResources_unlisted (env : CleanupEnv) (now : Z) (w : World) :
  docker_available w = true ->
  list_ok env = false ->
  cleanupResources env now w = (Ok tt, w).
Proof.
  intros Hav Hlist. unfold cleanupResources, docker_listContainers. run_monad.
  rewrite Hav, Hlist. reflexivity.
Qed.

Lemma unrecorded_false (rows : list ContainerRow) (id : string) :
  unrecorded rows id = false <-> exists c, In c rows /\ container_id c = id.
Proof.
  unfold unrecorded. split.
  - destruct (find _ rows) as [c|] eqn:E; [|discriminate]. intros _.
    apply find_some in E. exists c. split; [tauto|]. now apply String.eqb_eq.
  - intros (c & Hc & Hid). destruct (find _ rows) eqn:E; [reflexivity|].
    apply find_none with (x := c) in E; [|exact Hc].
    rewrite Hid, String.eqb_refl in E. discriminate.
Qed.

Lemma outlives_iff (env : CleanupEnv) (w : World) (d : DockerContainer) :
  outlives env (containers w)
           (filter (has_label "training.user") (docker_containers w)) d = true
  <-> ~ (orphaned w (d_id d) /\ orphan_remove_ok env (d_id d) = true).
Proof.
  unfold outlives, orphaned. rewrite negb_true_iff. split.
  - intros Hnone (((o & Ho & Hlabel & Hid) & Hno) & Hok).
    assert (Hlisted : In o (filter (has_label "training.user") (docker_containers w)))
      by (apply filter_In; tauto).
    pose proof (existsb_false_In _ _ o Hnone Hlisted) as Ho'. cbv beta in Ho'.
    rewrite Hid, Hok, String.eqb_refl, !andb_true_r in Ho'.
    apply unrecorded_false in Ho'. destruct Ho' as (c & Hc & E).
    now apply (Hno c Hc).
  - intros Hnot. apply not_true_is_false. intros E. apply existsb_exists in E.
    destruct E as (o & Ho & E). apply filter_In in Ho. destruct Ho as [Ho Hlabel].
    apply andb_true_iff in E. destruct E as [E Hid].
    apply andb_true_iff in E. destruct E as [Hun Hok]. apply String.eqb_eq in Hid.
    apply Hnot. rewrite Hid. split; [split|exact Hok].
    + exists o. repeat split; assumption.
    + intros c Hc Heq.
      assert (Hrec : unrecorded (containers w) (d_id o) = false).
      { apply unrecorded_false. exists c. split; [exact Hc|exact Heq]. }
      congruence.
Qed.

Lemma after_cleanup_runtime (env : CleanupEnv) (now : Z) (w : World) (d : DockerContainer) :
  In d (docker_containers (after_cleanup env now w))
  <-> In d (docker_containers w)
      /\ (prune_containers_ok env = true -> d_running d = true)
      /\ ~ (orphaned w (d_id d) /\ orphan_remove_ok env (d_id d) = true).
Proof.
  unfold after_cleanup. cbv zeta. cbn [docker_containers].
  destruct (prune_containers_ok env).
  - rewrite !filter_In, outlives_iff. tauto.
  - rewrite !filter_In, outlives_iff. split; [|tauto].
    intros [H1 H2]. repeat split; [exact H1 | discriminate | exact H2].
Qed.

Lemma after_cleanup_registry (env : CleanupEnv) (now : Z) (w : World) (c : ContainerRow) :
  In c (containers (after_cleanup env now w))
  <-> In c (containers w) /\ ~ (status c = stopped /\ created_at c < now - 86400).
Proof.
  unfold after_cleanup. cbv zeta. cbn [containers]. rewrite filter_In.
  unfold not_purged. rewrite negb_true_iff, andb_false_iff.
  split; intros [Hin H]; (split; [exact Hin|]).
  - intros [Hs Ht]. destruct H as [H|H].
    + rewrite Hs in H. discriminate.
    + apply Z.ltb_ge in H. lia.
  - destruct (Status_eqb (status c) stopped) eqn:Es; [|now left]. right.
    apply Z.ltb_ge. destruct (Z_lt_ge_dec (created_at c) (now - 86400)) as [Hlt|Hge]; [|lia].
    elim H. split; [|exact Hlt]. destruct (status c); try discriminate. reflexivity.
Qed.

(** X13. A reconciliation pass whose [listContainers] call is answered
    purges exactly the records that are 'stopped' and were created more
    than 24 hours (86400 s) before it: every other record, 'completed'
    ones of any age included, is kept as it is, and no record is added,
    whatever the removals and the prune calls do afterwards. When the
    listing fails, the pass ends before its DELETE and changes nothing at
    all. *)
Theorem reconciliation_purges_old_stopped (env : CleanupEnv) (now : Z) (w : World)
    (c : ContainerRow) :
  docker_available w = true ->
  (list_ok env = true ->
   (In c (containers (snd (cleanupResources env now w)))
    <-> In c (containers w) /\ ~ (status c = stopped /\ created_at c < now - 86400)))
  /\ (list_ok env = false -> cleanupResources env now w = (Ok tt, w)).
Proof.
  intros Hav. split; intros Hlist.
  - rewrite (cleanupResources_run env now w Hav Hlist). cbn [snd].
    apply after_cleanup_registry.
  - now apply cleanupResources_unlisted.
Qed.

Lemma reconciliation_purges_old_stopped_witness :
  In (mkContainer "c1" 1 7 uuid_a completed "32768" 1000)
     (containers (snd (cleanupResources cleanup_env_ok 1000000 world_completed)))
  /\ cleanupResources cleanup_env_unlisted 1000000 world_stale = (Ok tt, world_stale).
Proof.
  split.
  - apply (proj1 (reconciliation_purges_old_stopped cleanup_env_ok 1000000 world_completed
                    _ eq_refl) eq_refl).
    split; [left; reflexivity|]. intros [H _]. discriminate.
  - apply (proj2 (reconciliation_purges_old_stopped cleanup_env_unlisted 1000000 world_stale
                    (mkContainer "c1" 1 7 uuid_a stopped "32768" 1000) eq_refl) eq_refl).
Defined.

(** X14. After a reconciliation pass whose [listContainers] call is
    answered, the runtime holds exactly the containers that were there
    before, less the orphans whose forced removal the daemon carried out
    and, when [pruneContainers] succeeded, less the containers that are not
    running; an orphan is an id that a container labelled training.user
    carries and no registry record of the snapshot taken at the start of
    the pass has. So an orphan whose removal is refused stays, and a
    running container whose id has a record is never removed. *)
Theorem reconciliation_runtime (env : CleanupEnv) (now : Z) (w : World)
    (d : DockerContainer) :
  docker_available w = true ->
  list_ok env = true ->
  (In d (docker_containers (snd (cleanupResources env now w)))
   <-> In d (docker_containers w)
       /\ (prune_containers_ok env = true -> d_running d = true)
       /\ ~ (orphaned w (d_id d) /\ orphan_remove_ok env (d_id d) = true)).
Proof.
  intros Hav Hlist. rewrite (cleanupResources_run env now w Hav Hlist). cbn [snd].
  apply after_cleanup_runtime.
Qed.

Lemma reconciliation_runtime_witness :
  In (runtime_of "c1" uuid_a "7" "1")
     (docker_containers (snd (cleanupResources cleanup_env_ok 1000000 world_stale)))
  /\ In (runtime_of "c9" uuid_c "9" "1")
        (docker_containers (snd (cleanupResources cleanup_env_refused 1000000 world_orphan))).
Proof.
  split.
  - apply (reconciliation_runtime cleanup_env_ok 1000000 world_stale); [reflexivity..|].
    split; [left; reflexivity|]. split; [reflexivity|].
    intros [[_ Hno] _]. apply (Hno (mkContainer "c1" 1 7 uuid_a stopped "32768" 1000)).
    + left. reflexivity.
    + reflexivity.
  - apply (reconciliation_runtime cleanup_env_refused 1000000 world_orphan);
      [reflexivity..|].
    split; [right; left; reflexivity|]. split; [reflexivity|].
    intros [_ Hok]. discriminate.
Defined.

(** X15. The pass is not idempotent on the runtime: the orphan check uses
    the registry as it was before the purge of the same pass, so a running,
    labelled container whose only records are purged by a pass (its
    listing answered) survives that pass without any record, whatever the
    daemon does to the removals and prune calls of that pass, and is
    force-removed by the next pass when that pass's listing is answered
    and the daemon carries out the removal. *)
Theorem reconciliation_second_pass (env1 env2 : CleanupEnv) (now1 now2 : Z) (w : World)
    (d : DockerContainer) :
  docker_available w = true ->
  list_ok env1 = true ->
  list_ok env2 = true ->
  orphan_remove_ok env2 (d_id d) = true ->
  In d (docker_containers w) ->
  d_running d = true ->
  has_label "training.user" d = true ->
  (exists c, In c (containers w) /\ container_id c = d_id d) ->
  (forall c, In c (containers w) -> container_id c = d_id d ->
             status c = stopped /\ created_at c < now1 - 86400) ->
  let w1 := snd (cleanupResources env1 now1 w) in
  let w2 := snd (cleanupResources env2 now2 w1) in
  In d (docker_containers w1)
  /\ (forall c, In c (containers w1) -> container_id c <> d_id d)
  /\ in_runtime (d_id d) w2 = false.
Proof.
  intros Hav Hl1 Hl2 Hrm Hd Hrun Hlabel (c0 & Hc0 & Hid0) Hold. cbv zeta.
  rewrite (cleanupResources_run env1 now1 w Hav Hl1). cbn [snd].
  assert (Hav1 : docker_available (after_cleanup env1 now1 w) = true) by exact Hav.
  rewrite (cleanupResources_run env2 now2 _ Hav1 Hl2). cbn [snd].
  assert (H1 : In d (docker_containers (after_cleanup env1 now1 w))).
  { apply after_cleanup_runtime. split; [exact Hd|]. split; [intros _; exact Hrun|].
    intros [[_ Hno] _]. now apply (Hno c0 Hc0). }
  assert (H2 : forall c, In c (containers (after_cleanup env1 now1 w)) ->
                         container_id c <> d_id d).
  { intros c Hc E. apply after_cleanup_registry in Hc. destruct Hc as [Hc Hkeep].
    apply Hkeep. now apply Hold. }
  repeat split; [exact H1 | exact H2 |].
  apply not_true_is_false. intros E. unfold in_runtime in E. apply existsb_exists in E.
  destruct E as (d' & Hd' & E). apply String.eqb_eq in E.
  apply after_cleanup_runtime in Hd'. destruct Hd' as (_ & _ & Hnot).
  apply Hnot. rewrite E. split; [split; [|exact H2] | exact Hrm].
  exists d. auto.
Qed.

Lemma reconciliation_second_pass_witness :
  in_runtime "c1"
    (snd (cleanupResources cleanup_env_ok 2000000
            (snd (cleanupResources cleanup_env_refused 1000000 world_stale)))) = false.
Proof.
  apply (reconciliation_second_pass cleanup_env_refused cleanup_env_ok 1000000 2000000
           world_stale (runtime_of "c1" uuid_a "7" "1")).
  - reflexivity.
  - reflexivity.
  - reflexivity.
  - reflexivity.
  - left. reflexivity.
  - reflexivity.
  - reflexivity.
  - eexists. split; [left; reflexivity | reflexivity].
  - intros c [<-|[]] _. split; [reflexivity|]. cbn. lia.
Defined.

End CleanupFurther.

(** ** More on the subdomain router *)
Section RouterFurther.

Import Subdomain.

(** X16. The router proxies only to running containers: whenever a request
    is proxied, the registry holds a running record whose subdomain is the
    leftmost label of the hostname, the validator accepted that label, and
    the target is the host port of that record on localhost. *)
Theorem proxy_only_running (validateUUID : string -> bool) (w : World)
    (hostname target : string) :
  subdomainHandler validateUUID w hostname = Proxy target ->
  exists c, In c (containers w)
            /\ status c = running
            /\ extractSubdomain hostname = Some (subdomain c)
            /\ validateUUID (subdomain c) = true
            /\ target = "http://localhost:" ++ host_port c.
Proof.
  unfold subdomainHandler.
  destruct (extractSubdomain hostname) as [s|]; [|discriminate].
  destruct (s =? "")%string; [discriminate|]. cbn [orb].
  destruct (validateUUID s) eqn:Hvalid; [|discriminate]. cbn [negb].
  unfold getContainerInfo.
  destruct (find _ (containers w)) as [c|] eqn:Hfind; [|discriminate].
  intros H. injection H as <-. apply find_some in Hfind. destruct Hfind as [Hin E].
  apply andb_true_iff in E. destruct E as [Es Er]. apply String.eqb_eq in Es. subst s.
  exists c. repeat split; try assumption.
  destruct (status c); try discriminate. reflexivity.
Qed.

Lemma proxy_only_running_witness :
  exists c, In c (containers world_in_progress)
            /\ status c = running
            /\ extractSubdomain (uuid_a ++ ".apptraining.dbg.local") = Some (subdomain c)
            /\ Subdomain.validate (subdomain c) = true
            /\ "http://localhost:32768" = "http://localhost:" ++ host_port c.
Proof.
  apply (proxy_only_running Subdomain.validate world_in_progress
           (uuid_a ++ ".apptraining.dbg.local")).
  reflexivity.
Defined.

Lemma split_no_dot (s : string) : has_char "." s = false -> Js.split "." s = [s].
Proof.
  induction s as [|c s IH]; intros H; [reflexivity|].
  cbn [has_char] in H. apply orb_false_iff in H. destruct H as [Hc Hs].
  cbn [Js.split]. rewrite Hc, (IH Hs). reflexivity.
Qed.

Lemma has_dot_decompose (s : string) :
  has_char "." s = true ->
  exists a rest, s = a ++ String "." rest /\ has_char "." a = false.
Proof.
  induction s as [|c s IH]; intros H; [discriminate|].
  cbn [has_char] in H. destruct (Ascii.eqb c ".") eqn:Hc.
  - apply Ascii.eqb_eq in Hc. subst c. exists EmptyString, s. split; reflexivity.
  - cbn [orb] in H. destruct (IH H) as (a & rest & -> & Ha).
    exists (String c a), rest. split; [reflexivity|]. cbn [has_char]. now rewrite Hc, Ha.
Qed.

Lemma split_two_labels (s : string) :
  (2 <=? List.length (Js.split "." s))%nat = has_char "." s.
Proof.
  destruct (has_char "." s) eqn:H.
  - destruct (has_dot_decompose s H) as (a & rest & -> & Ha).
    rewrite (split_before_dot a rest Ha). cbn [List.length].
    destruct rest as [|c rest]; cbn [Js.split]; [reflexivity|].
    destruct (Ascii.eqb c "."); [reflexivity|].
    destruct (Js.split "." rest); reflexivity.
  - rewrite (split_no_dot s H). reflexivity.
Qed.

Lemma append_dot_inj (a a' rest rest' : string) :
  has_char "." a = false -> has_char "." a' = false ->
  a ++ String "." rest = a' ++ String "." rest' -> a = a' /\ rest = rest'.
Proof.
  revert a'. induction a as [|c a IH]; intros [|c' a'] Ha Ha' E; cbn [append] in E.
  - injection E as ->. now split.
  - injection E as <- _. cbn [has_char] in Ha'. rewrite Ascii.eqb_refl in Ha'. discriminate.
  - injection E as -> _. cbn [has_char] in Ha. rewrite Ascii.eqb_refl in Ha. discriminate.
  - injection E as <- E. cbn [has_char] in Ha, Ha'.
    apply orb_false_iff in Ha. apply orb_false_iff in Ha'.
    destruct (IH a' (proj2 Ha) (proj2 Ha') E) as [-> ->]. now split.
Qed.

(** X17. [extractSubdomain] returns a subdomain exactly for the hostnames
    with at least two dots, and the subdomain is the text before the first
    dot (which may be empty): hostname = subdomain + "." + rest, where the
    subdomain has no dot and rest has one. *)
Theorem extractSubdomain_first_label (hostname s : string) :
  extractSubdomain hostname = Some s
  <-> exists rest, hostname = s ++ String "." rest
                   /\ has_char "." s = false /\ has_char "." rest = true.
Proof.
  unfold extractSubdomain. cbv zeta. split.
  - destruct (has_char "." hostname) eqn:Hdot.
    + destruct (has_dot_decompose hostname Hdot) as (a & rest & -> & Ha).
      rewrite (split_before_dot a rest Ha). cbn [List.length hd].
      change (2 <? S (List.length (Js.split "." rest)))%nat
        with (2 <=? List.length (Js.split "." rest))%nat.
      rewrite split_two_labels. destruct (has_char "." rest) eqn:Hrest; [|discriminate].
      intros H. injection H as <-. exists rest. auto.
    + rewrite (split_no_dot hostname Hdot). discriminate.
  - intros (rest & -> & Hs & Hrest).
    rewrite (split_before_dot s rest Hs). cbn [List.length hd].
    change (2 <? S (List.length (Js.split "." rest)))%nat
      with (2 <=? List.length (Js.split "." rest))%nat.
    rewrite split_two_labels, Hrest. reflexivity.
Qed.

Lemma extractSubdomain_first_label_witness :
  extractSubdomain ".dbg.local" = Some EmptyString.
Proof.
  apply (extractSubdomain_first_label ".dbg.local" EmptyString).
  exists "dbg.local". repeat split.
Defined.

End RouterFurther.

(** ** More on bundle validation *)
Section UploadFurther.

Import Js Exercises.

(** X19. The level that an accepted bundle stores is canonical: it is the
    lowercased level of the metadata and one of beginner, intermediate,
    advanced, whatever the spelling in [metadata.json]. *)
Theorem accepted_level_canonical (u : Upload) (metadata : Metadata)
    (levelValue tag : string) :
  validate u = inr (metadata, (levelValue, tag)) ->
  In levelValue ["beginner"; "intermediate"; "advanced"]
  /\ exists s, level metadata = JStr s /\ levelValue = toLowerCase s.
Proof.
  unfold validate, validate_metadata, check_level.
  destruct (extract_error u); [discriminate|].
  destruct (negb (includes "Dockerfile" (files u))); [discriminate|].
  destruct (negb (includes "metadata.json" (files u))); [discriminate|].
  destruct (parsed u) as [e| |m]; try discriminate.
  destruct (negb (truthy (title m))); [discriminate|].
  destruct (negb (truthy (description m))); [discriminate|].
  destruct (negb (truthy (level m))); [discriminate|].
  destruct (level m) as [| |b|n|s|o] eqn:Hlevel; try discriminate.
  cbn [call_toLowerCase].
  destruct (includes (toLowerCase s) validLevels) eqn:Hin; [|discriminate]. cbn [negb].
  destruct (imageTag m); [|discriminate].
  intros H. injection H as <- <- <-. split.
  - now apply includes_In in Hin.
  - exists s. rewrite Hlevel. auto.
Qed.

Lemma accepted_level_canonical_witness :
  In "beginner" ["beginner"; "intermediate"; "advanced"]
  /\ exists s, level metadata_empty_version = JStr s /\ "beginner" = toLowerCase s.
Proof.
  apply (accepted_level_canonical (upload_of metadata_empty_version) metadata_empty_version
           "beginner" "training/sql-injection-101:latest").
  reflexivity.
Defined.

Lemma lower_char_idem (c : ascii) : lower_char (lower_char c) = lower_char c.
Proof. destruct c as [[|] [|] [|] [|] [|] [|] [|] [|]]; reflexivity. Qed.

Lemma is_space_lower_char (c : ascii) : is_space c = true -> lower_char c = c.
Proof. destruct c as [[|] [|] [|] [|] [|] [|] [|] [|]]; cbn; intros H; congruence. Qed.

Lemma all_lower_toLowerCase (s : string) : all_lower (toLowerCase s) = true.
Proof.
  induction s as [|c s IH]; [reflexivity|]. cbn [toLowerCase all_lower].
  rewrite lower_char_idem, Ascii.eqb_refl. exact IH.
Qed.

Lemma all_lower_fixed (s : string) : all_lower s = true -> toLowerCase s = s.
Proof.
  induction s as [|c s IH]; [reflexivity|]. cbn [toLowerCase all_lower].
  intros H. apply andb_true_iff in H. destruct H as [Hc Hs].
  apply Ascii.eqb_eq in Hc. now rewrite Hc, IH.
Qed.

Lemma all_lower_skip_spaces (s : string) : all_lower s = true -> all_lower (skip_spaces s) = true.
Proof.
  induction s as [|c s IH]; [reflexivity|]. cbn [skip_spaces all_lower].
  intros H. destruct (is_space c); [|exact H].
  apply andb_true_iff in H. now apply IH.
Qed.

Lemma replace_spaces_no_space (s : string) : no_space (replace_spaces s) = true.
Proof.
  funelim (replace_spaces s); [reflexivity|].
  destruct (is_space c) eqn:Hc; cbn [no_space].
  - rewrite H. reflexivity.
  - rewrite Hc, H0. reflexivity.
Qed.

Lemma replace_spaces_all_lower (s : string) :
  all_lower s = true -> all_lower (replace_spaces s) = true.
Proof.
  funelim (replace_spaces s); [reflexivity|].
  cbn [all_lower]. intros Hl. apply andb_true_iff in Hl. destruct Hl as [Hc Hr].
  destruct (is_space c) eqn:Hs; cbn [all_lower].
  - rewrite H; [reflexivity|]. now apply all_lower_skip_spaces.
  - rewrite Hc, H0; [reflexivity | exact Hr].
Qed.

Lemma replace_spaces_fixed (s : string) : no_space s = true -> replace_spaces s = s.
Proof.
  induction s as [|c s IH]; intros H; simp replace_spaces; [reflexivity|].
  cbn [no_space] in H. apply andb_true_iff in H. destruct H as [Hc Hs].
  apply negb_true_iff in Hc. rewrite Hc. now rewrite IH.
Qed.

(** X20. The slug in an image tag is normalised: it contains no whitespace
    and nothing that [toLowerCase] would change, and deriving a slug from it
    again gives the same slug. *)
Theorem slug_normalised (title_ : string) :
  let slug := replace_spaces (toLowerCase title_) in
  no_space slug = true
  /\ all_lower slug = true
  /\ replace_spaces (toLowerCase slug) = slug.
Proof.
  cbv zeta.
  assert (Hs : no_space (replace_spaces (toLowerCase title_)) = true)
    by apply replace_spaces_no_space.
  assert (Hl : all_lower (replace_spaces (toLowerCase title_)) = true)
    by (apply replace_spaces_all_lower, all_lower_toLowerCase).
  repeat split; try assumption.
  rewrite (all_lower_fixed _ Hl). now apply replace_spaces_fixed.
Qed.

End UploadFurther.

(** ** Deleting exercises and users *)
Section Deletion.

Import DockerService Containers.

(** X21. Deleting an exercise that the catalog does not hold is answered 404
    and changes nothing. Deleting one that it holds is answered 200 and
    removes exactly the catalog rows of that id: the containers and progress
    rows of the exercise and the runtime are left alone, and from then on no
    launch of that exercise succeeds or adds a record. *)
Theorem delete_exercise_effect (id : Z) (w : World) :
  (find (fun i => img_id i =? id) (docker_images w) = None ->
   Catalog.delete id w = (mkResponse 404 [("error", FStr "Exercise not found")], w))
  /\ (find (fun i => img_id i =? id) (docker_images w) <> None ->
      let w' := snd (Catalog.delete id w) in
      fst (Catalog.delete id w)
      = mkResponse 200 [("message", FStr "Exercise deleted successfully")]
      /\ (forall image, In image (docker_images w')
                        <-> In image (docker_images w) /\ img_id image <> id)
      /\ containers w' = containers w
      /\ exercise_progress w' = exercise_progress w
      /\ docker_containers w' = docker_containers w
      /\ forall env userId,
           code (fst (launch env userId id w')) <> 200
           /\ containers (snd (launch env userId id w')) = containers w).
Proof.
  unfold Catalog.delete, route. run_monad. split.
  - intros ->. reflexivity.
  - destruct (find (fun i => img_id i =? id) (docker_images w)) eqn:Hfind;
      [|intros H; now elim H].
    intros _. cbn [fst snd]. repeat split.
    + cbn [set_docker_images docker_images] in H. apply filter_In in H. tauto.
    + cbn [set_docker_images docker_images] in H. apply filter_In in H.
      destruct H as [_ H]. apply negb_true_iff in H. now apply Z.eqb_neq.
    + intros [Hin Hne]. cbn [set_docker_images docker_images]. apply filter_In.
      split; [exact Hin|]. apply negb_true_iff. now apply Z.eqb_neq.
    + set (w' := set_docker_images _ w).
      assert (Hgone : find (fun i => img_id i =? id) (docker_images w') = None).
      { apply find_none_all. intros image Hin. cbn [w' set_docker_images docker_images] in Hin.
        apply filter_In in Hin. destruct Hin as [_ Hin]. now apply negb_true_iff. }
      unfold launch, route. run_monad.
      destruct (find (is_running_for userId id) (containers w')); [discriminate|].
      destruct (3 <=? count_running userId w'); [discriminate|].
      destruct (docker_available w') eqn:Hav.
      * rewrite (createContainer_no_image env id userId w' Hav Hgone). discriminate.
      * rewrite (createContainer_unavailable env id userId w' Hav). discriminate.
    + set (w' := set_docker_images _ w).
      assert (Hgone : find (fun i => img_id i =? id) (docker_images w') = None).
      { apply find_none_all. intros image Hin. cbn [w' set_docker_images docker_images] in Hin.
        apply filter_In in Hin. destruct Hin as [_ Hin]. now apply negb_true_iff. }
      unfold launch, route. run_monad.
      destruct (find (is_running_for userId id) (containers w')); [reflexivity|].
      destruct (3 <=? count_running userId w'); [reflexivity|].
      destruct (docker_available w') eqn:Hav.
      * rewrite (createContainer_no_image env id userId w' Hav Hgone). reflexivity.
      * rewrite (createContainer_unavailable env id userId w' Hav). reflexivity.
Qed.

Lemma delete_exercise_effect_witness :
  Catalog.delete 2 world_completed
  = (mkResponse 404 [("error", FStr "Exercise not found")], world_completed)
  /\ code (fst (launch env_fresh 7 1 (snd (Catalog.delete 1 world_completed)))) <> 200.
Proof.
  split.
  - apply (proj1 (delete_exercise_effect 2 world_completed)). reflexivity.
  - apply (proj2 (delete_exercise_effect 1 world_completed)). discriminate.
Defined.

(** X22. An administrator's deletion of an ordinary user is answered 200 and
    removes the user row and exactly the registry and progress rows of that
    user, without asking anything of the docker daemon: the user's runtime
    containers keep running without a record, and it is the next
    reconciliation pass that force-removes them as orphans, provided the
    daemon answers that pass's [listContainers] and carries out the
    removal. *)
Theorem delete_user_cascade (env : CleanupEnv) (userId now : Z) (s : Admin.Site)
    (u : Admin.UserRow) :
  find (fun x => Admin.u_id x =? userId) (Admin.users s) = Some u ->
  Admin.role u = Admin.user ->
  let served := Admin.delete_user (Some Admin.admin) userId s in
  let w' := Admin.world (snd served) in
  fst served = mkResponse 200 [("message", FStr "User deleted successfully")]
  /\ (forall x, In x (Admin.users (snd served))
                <-> In x (Admin.users s) /\ Admin.u_id x <> userId)
  /\ (forall c, In c (containers w') <-> In c (containers (Admin.world s)) /\ user_id c <> userId)
  /\ (forall p, In p (exercise_progress w')
                <-> In p (exercise_progress (Admin.world s)) /\ p_user_id p <> userId)
  /\ docker_containers w' = docker_containers (Admin.world s)
  /\ (docker_available (Admin.world s) = true ->
      list_ok env = true ->
      forall d, In d (docker_containers (Admin.world s)) ->
                has_label "training.user" d = true ->
                (forall c, In c (containers (Admin.world s)) ->
                           container_id c = d_id d -> user_id c = userId) ->
                orphan_remove_ok env (d_id d) = true ->
                in_runtime (d_id d) (snd (cleanupResources env now w')) = false).
Proof.
  intros Hfind Hrole. cbv zeta. unfold Admin.delete_user, Admin.isAdmin, Admin.delete_user_handler.
  rewrite Hfind, Hrole. cbn [fst snd Admin.world Admin.users].
  assert (Hneq : forall a b : Z, negb (a =? b) = true <-> a <> b).
  { intros a b. rewrite negb_true_iff. apply Z.eqb_neq. }
  repeat split.
  - apply filter_In in H. tauto.
  - apply filter_In in H. now apply Hneq.
  - intros [Hin Hne]. apply filter_In. split; [exact Hin | now apply Hneq].
  - cbn [set_progress set_containers containers] in H. apply filter_In in H. tauto.
  - cbn [set_progress set_containers containers] in H. apply filter_In in H. now apply Hneq.
  - intros [Hin Hne]. cbn [set_progress set_containers containers].
    apply filter_In. split; [exact Hin | now apply Hneq].
  - cbn [set_progress set_containers exercise_progress] in H. apply filter_In in H. tauto.
  - cbn [set_progress set_containers exercise_progress] in H. apply filter_In in H.
    now apply Hneq.
  - intros [Hin Hne]. cbn [set_progress set_containers exercise_progress].
    apply filter_In. split; [exact Hin | now apply Hneq].
  - intros Hav Hlist d Hd Hlabel Hown Hrm.
    set (w' := set_progress _ (set_containers _ (Admin.world s))).
    assert (Hav' : docker_available w' = true) by exact Hav.
    rewrite (cleanupResources_run env now w' Hav' Hlist). cbn [snd].
    apply not_true_is_false. intros E. unfold in_runtime in E. apply existsb_exists in E.
    destruct E as (d' & Hd' & E). apply String.eqb_eq in E.
    apply after_cleanup_runtime in Hd'. destruct Hd' as (_ & _ & Hnot).
    apply Hnot. rewrite E. split; [split|exact Hrm].
    + exists d. repeat split; assumption.
    + intros c Hc Hid. cbn [w' set_progress set_containers containers] in Hc.
      apply filter_In in Hc. destruct Hc as [Hc Hne]. apply Hneq in Hne.
      apply Hne. now apply Hown.
Qed.

Lemma delete_user_cascade_witness :
  in_runtime "c1"
    (snd (cleanupResources cleanup_env_ok 100000
            (Admin.world (snd (Admin.delete_user (Some Admin.admin) 7 site_in_progress)))))
  = false.
Proof.
  pose proof (delete_user_cascade cleanup_env_ok 7 100000 site_in_progress
                (Admin.mkUser 7 "trainee-seven" "$argon2id$seven" Admin.user 500)
                eq_refl eq_refl) as H.
  cbv zeta in H. destruct H as (_ & _ & _ & _ & _ & H).
  apply (H eq_refl eq_refl (runtime_of "c1" uuid_a "7" "1")).
  - left. reflexivity.
  - reflexivity.
  - intros c [<-|[]] _. reflexivity.
  - reflexivity.
Defined.

(** X23. A user deletion is refused without any change when the requester's
    session does not carry the admin role (403 Forbidden), when the target
    is an administrator (403), and when the target does not exist (404). *)
Theorem delete_user_refused (userRole : option Admin.Role) (userId : Z) (s : Admin.Site) :
  (userRole <> Some Admin.admin ->
   Admin.delete_user userRole userId s = (mkResponse 403 [("error", FStr "Forbidden")], s))
  /\ (forall u, find (fun x => Admin.u_id x =? userId) (Admin.users s) = Some u ->
                Admin.role u = Admin.admin ->
                Admin.delete_user (Some Admin.admin) userId s
                = (mkResponse 403 [("error", FStr "Cannot delete admin users")], s))
  /\ ((forall x, In x (Admin.users s) -> Admin.u_id x <> userId) ->
      Admin.delete_user (Some Admin.admin) userId s
      = (mkResponse 404 [("error", FStr "User not found")], s)).
Proof.
  unfold Admin.delete_user, Admin.isAdmin, Admin.delete_user_handler. repeat split.
  - intros Hrole. destruct userRole as [[|]|]; [now elim Hrole | reflexivity | reflexivity].
  - intros u Hfind Hrole. now rewrite Hfind, Hrole.
  - intros Hno. rewrite find_none_all; [reflexivity|].
    intros x Hx. apply Z.eqb_neq. now apply Hno.
Qed.

Lemma delete_user_refused_witness :
  Admin.delete_user (Some Admin.user) 7 site_in_progress
  = (mkResponse 403 [("error", FStr "Forbidden")], site_in_progress)
  /\ Admin.delete_user (Some Admin.admin) 1 site_in_progress
     = (mkResponse 403 [("error", FStr "Cannot delete admin users")], site_in_progress)
  /\ Admin.delete_user (Some Admin.admin) 9 site_in_progress
     = (mkResponse 404 [("error", FStr "User not found")], site_in_progress).
Proof.
  split; [|split].
  - apply (proj1 (delete_user_refused (Some Admin.user) 7 site_in_progress)). discriminate.
  - apply (proj1 (proj2 (delete_user_refused (Some Admin.admin) 1 site_in_progress))
             (Admin.mkUser 1 "adminRyan" "$argon2id$admin" Admin.admin 0));
      reflexivity.
  - apply (proj2 (proj2 (delete_user_refused (Some Admin.admin) 9 site_in_progress))).
    intros x [<-|[<-|[]]]; discriminate.
Defined.

End Deletion.

(** ** Session tracking ([src/services/logger.js]) *)
Section SessionFacts.

Import Sessions.

(** X24. [trackSession] replaces: afterwards the table has exactly one row
    for the session id, the new one, and the rows of other sessions are as
    before, so session ids stay unique; removing the session afterwards
    gives the table that removing it before would have given. *)
Theorem trackSession_replaces (now sessionId : string) (userId : Z) (ip ua : option string)
    (table : list SessionRow) :
  let table' := trackSession now sessionId userId ip ua table in
  filter (is_session sessionId) table' = [mkSession sessionId userId ip ua now now]
  /\ filter (fun r => negb (is_session sessionId r)) table'
     = filter (fun r => negb (is_session sessionId r)) table
  /\ (NoDup (map session_id table) -> NoDup (map session_id table'))
  /\ removeSession sessionId table' = removeSession sessionId table.
Proof.
  cbv zeta. unfold trackSession, removeSession.
  assert (Hnew : is_session sessionId (mkSession sessionId userId ip ua now now) = true)
    by apply String.eqb_refl.
  repeat split.
  - rewrite filter_app, filter_filter_negb. cbn [filter app]. now rewrite Hnew.
  - rewrite filter_app, (filter_idem (fun r => negb (is_session sessionId r))).
    cbn [filter]. rewrite Hnew. cbn [negb]. apply app_nil_r.
  - intros Hnd. rewrite map_app. cbn [map session_id].
    assert (Hsnoc : forall (l : list string) a, NoDup l -> ~ In a l -> NoDup (l ++ [a])).
    { induction l as [|b l IH]; intros a Hl Ha; cbn [app].
      - constructor; [intros []|constructor].
      - inversion Hl as [|x xs Hb Hrest]; subst. constructor.
        + intros Hin. apply in_app_or in Hin. destruct Hin as [Hin|[->|[]]].
          * now apply Hb.
          * apply Ha. now left.
        + apply IH; [assumption|]. intros Hin. apply Ha. now right. }
    apply Hsnoc; [now apply NoDup_map_filter|].
    intros Hin. apply in_map_iff in Hin. destruct Hin as (r & Hr & Hin).
    apply filter_In in Hin. destruct Hin as [_ Hin]. unfold is_session in Hin.
    rewrite Hr, String.eqb_refl in Hin. discriminate.
  - rewrite filter_app, (filter_idem (fun r => negb (is_session sessionId r))).
    cbn [filter]. rewrite Hnew. cbn [negb]. apply app_nil_r.
Qed.

Lemma trackSession_replaces_witness :
  NoDup (map session_id
           (trackSession "2025-03-10 00:30:00" "sid-1" 7 (Some "10.0.0.7") None
              [mkSession "sid-1" 7 None None "2025-03-09 23:10:00" "2025-03-09 23:59:59";
               mkSession "sid-2" 8 None None "2025-03-09 23:10:00" "2025-03-09 23:59:59"])).
Proof.
  apply (trackSession_replaces "2025-03-10 00:30:00" "sid-1" 7 (Some "10.0.0.7") None).
  cbn. repeat constructor; cbn; intuition discriminate.
Defined.

Lemma compare_common_prefix (p a b : string) :
  String.compare (p ++ a) (p ++ b) = String.compare a b.
Proof.
  induction p as [|c p IH]; [reflexivity|]. cbn [append String.compare].
  unfold Ascii.compare. rewrite N.compare_refl. exact IH.
Qed.

(** X25. [cleanupExpiredSessions] compares the stored text
    'YYYY-MM-DD HH:MM:SS' with the ISO text 'YYYY-MM-DDTHH:MM:SS.sssZ':
    a session whose last activity falls on the calendar date of the expiry
    instant is deleted whatever its time of day, because the space after the
    date sorts before the letter T; a session survives exactly when its
    text does not sort before the expiry text. *)
Theorem session_expiry_by_text (expiry : string) (table : list SessionRow) (r : SessionRow) :
  (In r (cleanupExpiredSessions expiry table)
   <-> In r table /\ String.ltb (s_last_activity r) expiry = false)
  /\ (forall date time rest,
        s_last_activity r = date ++ String " " time ->
        expiry = date ++ String "T" rest ->
        ~ In r (cleanupExpiredSessions expiry table)).
Proof.
  unfold cleanupExpiredSessions. split.
  - rewrite filter_In, negb_true_iff. tauto.
  - intros date time rest Hlast Hexp Hin. apply filter_In in Hin. destruct Hin as [_ Hin].
    apply negb_true_iff in Hin. unfold String.ltb in Hin.
    rewrite Hlast, Hexp, compare_common_prefix in Hin. cbn in Hin. discriminate.
Qed.

Lemma session_expiry_by_text_witness :
  ~ In (mkSession "sid-1" 7 None None "2025-03-09 23:10:00" "2025-03-09 23:59:59")
       (cleanupExpiredSessions "2025-03-09T00:30:00.000Z"
          [mkSession "sid-1" 7 None None "2025-03-09 23:10:00" "2025-03-09 23:59:59"]).
Proof.
  apply (proj2 (session_expiry_by_text "2025-03-09T00:30:00.000Z" _ _)
           "2025-03-09" "23:59:59" "00:30:00.000Z"); reflexivity.
Defined.

End SessionFacts.

(** ** The transform of [examples/basic-js-analysis] *)
Section JsAnalysisFacts.

Import JsAnalysis.

Local Open Scope N_scope.

Ltac n2z :=
  try apply N2Z.inj; try apply N2Z.inj_lt;
  repeat rewrite ?N2Z.inj_add, ?N2Z.inj_mul, ?N2Z.inj_div, ?N2Z.inj_mod;
  change (Z.of_N 65536) with 65536%Z; change (Z.of_N 262144) with 262144%Z;
  change (Z.of_N 4096) with 4096%Z; change (Z.of_N 256) with 256%Z;
  change (Z.of_N 64) with 64%Z; change (Z.of_N 0) with 0%Z;
  Z.div_mod_to_equations; lia.

Lemma list_ind3 {A : Type} (P : list A -> Prop) :
  P [] -> (forall a, P [a]) -> (forall a b, P [a; b]) ->
  (forall a b c r, P r -> P (a :: b :: c :: r)) ->
  forall l, P l.
Proof.
  intros H0 H1 H2 H3.
  assert (H : forall l, P l /\ (forall a, P (a :: l)) /\ (forall a b, P (a :: b :: l))).
  { induction l as [|c l (IHl & IHa & IHb)].
    - repeat split; auto.
    - repeat split; auto. }
  intros l. apply H.
Qed.

Lemma digit_facts (i : N) : i < 64 -> value (digit i) = i /\ (digit i =? 61) = false.
Proof.
  intros Hi.
  assert (Hall : forallb (fun i => (value (digit i) =? i) && negb (digit i =? 61))
                         (map N.of_nat (seq 0 64)) = true) by (vm_compute; reflexivity).
  rewrite forallb_forall in Hall. specialize (Hall i).
  assert (Hin : In i (map N.of_nat (seq 0 64))).
  { apply in_map_iff. exists (N.to_nat i). split; [apply N2Nat.id|].
    apply in_seq. lia. }
  apply Hall in Hin. apply andb_true_iff in Hin. destruct Hin as [Hv Hp].
  split; [now apply N.eqb_eq | now apply negb_true_iff].
Qed.

Lemma value_pad : value 61 = 0.
Proof. vm_compute. reflexivity. Qed.

Lemma sextets (n : N) :
  n < 16777216 ->
  n / 262144 < 64 /\ (n / 4096) mod 64 < 64 /\ (n / 64) mod 64 < 64 /\ n mod 64 < 64.
Proof. intros H. repeat split; n2z. Qed.

Lemma unbase64_base64 (bytes : list N) :
  forall fuel, Forall (fun b => b < 256) bytes ->
               (List.length bytes <= 3 * fuel)%nat ->
               unbase64 fuel (base64 bytes) = bytes.
Proof.
  induction bytes as [|a|a b|a b c r IH] using list_ind3; intros fuel Hb Hfuel.
  - destruct fuel; reflexivity.
  - destruct fuel as [|fuel]; [cbn in Hfuel; lia|].
    inversion Hb as [|x xs Ha _]; subst.
    cbn [base64 unbase64]. cbv zeta. rewrite N.eqb_refl, value_pad.
    assert (Hn : a * 65536 < 16777216) by lia.
    destruct (sextets _ Hn) as (H1 & H2 & _).
    rewrite (proj1 (digit_facts _ H1)), (proj1 (digit_facts _ H2)).
    f_equal. n2z.
  - destruct fuel as [|fuel]; [cbn in Hfuel; lia|].
    inversion Hb as [|x xs Ha Hb']; subst. inversion Hb' as [|y ys Hbb _]; subst.
    cbn [base64 unbase64]. cbv zeta. rewrite N.eqb_refl, value_pad.
    assert (Hn : a * 65536 + b * 256 < 16777216) by lia.
    destruct (sextets _ Hn) as (H1 & H2 & H3 & _).
    rewrite (proj2 (digit_facts _ H3)).
    rewrite (proj1 (digit_facts _ H1)), (proj1 (digit_facts _ H2)),
      (proj1 (digit_facts _ H3)).
    f_equal; [n2z|]. f_equal. n2z.
  - destruct fuel as [|fuel]; [cbn in Hfuel; lia|].
    inversion Hb as [|x xs Ha Hb1]; subst. inversion Hb1 as [|y ys Hbb Hb2]; subst.
    inversion Hb2 as [|z zs Hc Hr]; subst.
    cbn [base64 unbase64 app]. cbv zeta.
    assert (Hn : a * 65536 + b * 256 + c < 16777216) by lia.
    destruct (sextets _ Hn) as (H1 & H2 & H3 & H4).
    rewrite (proj2 (digit_facts _ H3)), (proj2 (digit_facts _ H4)).
    rewrite (proj1 (digit_facts _ H1)), (proj1 (digit_facts _ H2)),
      (proj1 (digit_facts _ H3)), (proj1 (digit_facts _ H4)).
    cbn [app]. rewrite IH; [|exact Hr|cbn [List.length] in Hfuel; lia].
    f_equal; [n2z|]. f_equal; [n2z|]. f_equal. n2z.
Qed.

Lemma base64_length (bytes : list N) :
  (List.length bytes <= List.length (base64 bytes))%nat.
Proof.
  induction bytes as [|a|a b|a b c r IH] using list_ind3; cbn [base64 List.length app]; lia.
Qed.

Lemma decode_padded_base64 (bytes : list N) :
  Forall (fun b => b < 128) bytes -> decode_padded (base64 bytes) = bytes.
Proof.
  intros H. unfold decode_padded. apply unbase64_base64.
  - eapply Forall_impl; [|exact H]. cbv beta. intros; lia.
  - pose proof (base64_length bytes). lia.
Qed.

Lemma valid_input_small (input : units) :
  isValidInput input = true -> Forall (fun n => n <= 124) input.
Proof.
  unfold isValidInput. destruct input as [|a l]; [discriminate|].
  intros H. apply Forall_forall. intros n Hn.
  rewrite forallb_forall in H. specialize (H n Hn).
  unfold is_alnum, Js.in_range in H.
  repeat (apply orb_true_iff in H; destruct H as [H|H]);
    apply andb_true_iff in H; destruct H as [_ H]; apply N.leb_le in H; lia.
Qed.

Lemma shift_unshift (n : N) :
  n <= 124 ->
  fromCharCode (Z.of_N n + 3) = n + 3
  /\ fromCharCode (Z.of_N (n + 3) - 3) = n.
Proof.
  intros H. unfold fromCharCode. split.
  - rewrite Z.mod_small by lia. lia.
  - rewrite Z.mod_small by lia. lia.
Qed.

(** X26. The client transform and the server are inverse to each other:
    for every input that [isValidInput] accepts, and more generally for
    every input of code units up to 124, [transformInput] succeeds and
    the server's [processInput] of its result is the HTML template with the
    original input, unchanged, in the place of the interpolation. The
    base64-and-UTF-8 decoding of the server is a built-in; all that is used
    of it is that it inverts base64 on 7-bit bytes. *)
Theorem transform_round_trip (decode_base64_utf8 : units -> units) (input : units) :
  (forall bytes, Forall (fun b => b < 128) bytes ->
                 decode_base64_utf8 (base64 bytes) = bytes) ->
  isValidInput input = true \/ Forall (fun n => n <= 124) input ->
  exists transformed,
    transformInput input = Some transformed
    /\ processInput decode_base64_utf8 transformed
       = (html_open ++ input ++ html_close)%list.
Proof.
  intros Hdecode Hinput.
  assert (Hsmall : Forall (fun n => n <= 124) input).
  { destruct Hinput as [H|H]; [now apply valid_input_small | exact H]. }
  clear Hinput.
  assert (Hshift : map (fun n => fromCharCode (Z.of_N n + 3)) input = map (fun n => n + 3) input).
  { apply map_ext_in. intros n Hn. rewrite Forall_forall in Hsmall.
    apply shift_unshift. now apply Hsmall. }
  assert (H7 : Forall (fun b => b < 128) (rev (map (fun n => n + 3) input))).
  { apply Forall_rev, Forall_map. eapply Forall_impl; [|exact Hsmall].
    cbv beta. intros; lia. }
  exists (base64 (rev (map (fun n => n + 3) input))). split.
  - unfold transformInput, btoa. cbv zeta. rewrite Hshift.
    replace (forallb (fun n => n <=? 255) (rev (map (fun n => n + 3) input))) with true;
      [reflexivity|].
    symmetry. apply forallb_forall. intros n Hn. rewrite Forall_forall in H7.
    apply N.leb_le. specialize (H7 n Hn). cbv beta in H7. lia.
  - unfold processInput. cbv zeta. rewrite (Hdecode _ H7), rev_involutive, map_map.
    do 2 f_equal. rewrite <- (map_id input) at 2. apply map_ext_in.
    intros n Hn. rewrite Forall_forall in Hsmall. apply shift_unshift. now apply Hsmall.
Qed.

Lemma transform_round_trip_witness :
  exists transformed,
    transformInput (units_of "Rocq2026") = Some transformed
    /\ processInput decode_padded transformed
       = (html_open ++ units_of "Rocq2026" ++ html_close)%list.
Proof.
  apply (transform_round_trip decode_padded (units_of "Rocq2026")).
  - exact decode_padded_base64.
  - left. vm_compute. reflexivity.
Defined.

Example transformInput_example :
  transformInput (units_of "abc") = Some (units_of "ZmVk").
Proof. vm_compute. reflexivity. Qed.

End JsAnalysisFacts.
